(** * MyTestProj: a verification development

    Shallow embedding of the two scripts of the repository:

    - [src/PyHealthTest/mimic4_mortality_prediction.py]: a linear
      orchestration of four operations of an external toolkit (load, label,
      map codes, split) followed by console reports, wrapped in a top-level
      exception handler;
    - [src/main.py]: a fixed sequence of calls of Python's [math] module.

    Console output is modelled as the list of printed lines, each line
    being the f-string template together with the values interpolated in
    it. Python exceptions are values carrying their class, the classes
    they inherit from and their message. A computation is a pair of the
    lines printed so far and either the exception raised or the value
    returned. *)

From Stdlib Require Import QArith Qround Reals Lra.
From stdpp Require Import gmap strings list.

Local Open Scope string_scope.
Local Open Scope list_scope.
Local Open Scope Z_scope.

(** ** Python exceptions *)

Module Py.

(** An exception object: [mro] is the method resolution order of its
    class, the class itself first and ["BaseException"] last; [msg] is
    what [str(e)] gives. *)
Record exn := Exn { mro : list string; msg : string }.

(** [isinstance(e, C)], which is also the test of [except C]. *)
Definition isinstance (e : exn) (c : string) : bool :=
  bool_decide (c ∈ mro e).

(** [type(e).__name__]. *)
Definition type_name (e : exn) : string := hd "BaseException" (mro e).

Definition FileNotFoundError (m : string) : exn :=
  Exn ["FileNotFoundError"; "OSError"; "Exception"; "BaseException"] m.
Definition ImportError (m : string) : exn :=
  Exn ["ImportError"; "Exception"; "BaseException"] m.
Definition ModuleNotFoundError (m : string) : exn :=
  Exn ["ModuleNotFoundError"; "ImportError"; "Exception"; "BaseException"] m.
Definition ZeroDivisionError : exn :=
  Exn ["ZeroDivisionError"; "ArithmeticError"; "Exception"; "BaseException"]
      "division by zero".
Definition KeyError (k : string) : exn :=
  Exn ["KeyError"; "LookupError"; "Exception"; "BaseException"] k.
Definition ValueError (m : string) : exn :=
  Exn ["ValueError"; "Exception"; "BaseException"] m.
Definition KeyboardInterrupt : exn :=
  Exn ["KeyboardInterrupt"; "BaseException"] "".

(** ** Printed lines *)

(** A value interpolated in an f-string. *)
Inductive value :=
| VInt (n : Z)
| VFloat (q : Q)
| VStr (s : string).

(** One call of [print]: the template of the (f-)string and the values of
    its replacement fields, in order. A literal string has no values. *)
Record line := Line { template : string; fields : list value }.

Definition text (s : string) : line := Line s [].

(** ** Computations that print and may raise *)

Definition M (A : Type) : Type := (list line * (exn + A))%type.

Definition ret {A} (a : A) : M A := ([], inr a).
Definition raise {A} (e : exn) : M A := ([], inl e).
Definition print (l : line) : M unit := ([l], inr tt).
Definition call {A} (r : exn + A) : M A := ([], r).

Definition bind {A B} (m : M A) (f : A -> M B) : M B :=
  match m with
  | (o, inl e) => (o, inl e)
  | (o, inr a) => let '(o', r) := f a in (o ++ o', r)
  end.

Definition output {A} (m : M A) : list line := fst m.
Definition outcome {A} (m : M A) : exn + A := snd m.

(** [a / b] on integers: true division, raising on a zero divisor. The
    quotient is the exact rational; Python rounds it to the nearest
    float and raises [OverflowError] when it is beyond the range of the
    floats, which is left out: the dividends of the script are lengths
    and sums of labels, and a quotient of lengths, or of a sum of binary
    labels by their number, is far inside that range. *)
Definition truediv (a b : Z) : M Q :=
  if b =? 0 then raise ZeroDivisionError
  else ret (inject_Z a / inject_Z b)%Q.

End Py.

(** The sequencing notations [x ← c; k] and [c;; k] are stdpp's. *)
#[global] Instance M_ret : MRet Py.M := @Py.ret.
#[global] Instance M_bind : MBind Py.M := fun A B f m => Py.bind m f.

Import Py.

(** [len(x)] of a list, as a Python integer. *)
Definition len {A} (l : list A) : Z := Z.of_nat (length l).

(** [sum(l)] of a list of integers. *)
Definition sum (l : list Z) : Z := fold_left Z.add l 0.

(** [s * n] on strings. *)
Fixpoint str_mul (s : string) (n : nat) : string :=
  match n with
  | O => ""
  | S n' => s +:+ str_mul s n'
  end.

(** [sep.join(l)]. *)
Definition join (sep : string) (l : list string) : string :=
  String.concat sep l.

(** The newline escape of the source's string literals. *)
Definition NL : string := String (Ascii.ascii_of_nat 10) "".

(** ** Data model

    The entities are owned by the external toolkit; the script reads a
    sample through the keys [patient_id] and [label] and a sample
    collection through [len], iteration and the optional attribute
    [input_info]. *)

Record sample := Sample {
  patient_id : string;
  label : Z;
  conditions : list string;
  procedures : list string;
  drugs : list string
}.

(** [input_info] maps a feature name to a dictionary describing it; the
    script reads the entry ["vocab"] of that dictionary, a vocabulary
    given by its list of codes. The attribute may be absent. *)
Record sample_dataset := SampleDataset {
  samples : list sample;
  input_info : option (gmap string (gmap string (list string)))
}.

#[global] Instance sample_eq_dec : EqDecision sample.
Proof. solve_decision. Defined.

(** ** The external collaborator

    The four operations the script delegates to the toolkit, each either
    raising or returning, and the two attributes read from a dataset. *)
Class Toolkit := {
  dataset : Type;
  MIMIC4Dataset :
    forall (root : string) (tables : list string) (dev refresh_cache : bool),
      exn + dataset;
  patients : dataset -> list string;
  tables : dataset -> list string;
  set_task : dataset -> forall task_fn : string, exn + sample_dataset;
  stat_code_mapping :
    sample_dataset ->
    forall (source_code target_code : string) (level : option Z),
      exn + sample_dataset;
  split_by_patient :
    sample_dataset -> forall (ratios : list Q) (seed : Z),
      exn + (list sample * list sample * list sample)
}.

(** ** The orchestration script: [main]

    One definition per step of [main], in the order of the source; the
    comments give the source lines. *)
Module Mortality.
Section Main.
Context `{Toolkit}.

Definition rule (c : string) : line := text (str_mul c 80).

(** Step 1, lines 39-61. *)
Definition step1 : M dataset :=
  print (text (NL +:+ "[Step 1] Loading MIMIC-IV Dataset..."));;
  print (rule "-");;
  mimic4_dataset ← call (MIMIC4Dataset "/path/to/mimiciv/"
      ["diagnoses_icd"; "procedures_icd"; "prescriptions"] true false);
  print (text "✓ Dataset loaded successfully");;
  print (Line "  - Number of patients: {}"
      [VInt (len (patients mimic4_dataset))]);;
  print (Line "  - Tables loaded: {}"
      [VStr (join ", " (tables mimic4_dataset))]);;
  mret mimic4_dataset.

(** Step 2, lines 66-79. *)
Definition step2 (mimic4_dataset : dataset) : M sample_dataset :=
  print (text (NL +:+
    "[Step 2] Applying In-Hospital Mortality Prediction Task..."));;
  print (rule "-");;
  task_ds ← call (set_task mimic4_dataset "in_hospital_mortality_mimic4_fn");
  print (text "✓ Task applied successfully");;
  print (text "  - Task type: In-Hospital Mortality Prediction");;
  print (Line "  - Number of samples: {}" [VInt (len (samples task_ds))]);;
  mret task_ds.

(** Step 3, lines 84-110: the two code mappings. *)
Definition step3 (task_ds : sample_dataset) : M sample_dataset :=
  print (text (NL +:+ "[Step 3] Preprocessing - Mapping Medical Codes..."));;
  print (rule "-");;
  print (text "  a) Mapping NDC drug codes to ATC Level 3...");;
  task_ds ← call (stat_code_mapping task_ds "NDC" "ATC" (Some 3));
  print (text "     ✓ NDC codes mapped to ATC Level 3");;
  print (text "  b) Mapping ICD9CM codes to ICD10CM...");;
  task_ds ← call (stat_code_mapping task_ds "ICD9CM" "ICD10CM" None);
  print (text "     ✓ ICD9CM codes mapped to ICD10CM");;
  mret task_ds.

(** The ratios and the seed of the call at lines 123-127. *)
Definition ratios : list Q := [8 # 10; 1 # 10; 1 # 10]%Q.
Definition seed : Z := 42.

(** One line of the size report, lines 130-132: the count, then the
    percentage [len(part)/len(task_ds)*100], whose division raises on an
    empty collection before anything of the line is printed. *)
Definition size_line (tmpl : string) (part : list sample)
    (task_ds : sample_dataset) : M unit :=
  q ← truediv (len part) (len (samples task_ds));
  print (Line tmpl [VInt (len part); VFloat (q * 100)%Q]).

(** Step 4, lines 115-132. *)
Definition step4 (task_ds : sample_dataset)
    : M (list sample * list sample * list sample) :=
  print (text (NL +:+
    "[Step 4] Splitting Data into Train/Validation/Test Sets..."));;
  print (rule "-");;
  '(train_ds, val_ds, test_ds) ← call (split_by_patient task_ds ratios seed);
  print (text "✓ Data split completed");;
  size_line "  - Training set size:   {:>6} samples ({:.1f}%)"
    train_ds task_ds;;
  size_line "  - Validation set size: {:>6} samples ({:.1f}%)"
    val_ds task_ds;;
  size_line "  - Test set size:       {:>6} samples ({:.1f}%)"
    test_ds task_ds;;
  mret (train_ds, val_ds, test_ds).

(** One block of the vocabulary report (lines 148-152, 156-160 and
    164-168, which differ in the feature name and the two texts):
    [hasattr(task_ds, 'input_info') and key in task_ds.input_info] guards
    [len(task_ds.input_info[key]['vocab'])], whose second subscript raises
    [KeyError] when the entry has no ['vocab']. *)
Definition vocab_line (task_ds : sample_dataset) (key : string)
    (tmpl na : string) : M unit :=
  match input_info task_ds with
  | Some info =>
      match info !! key with
      | Some entry =>
          match entry !! "vocab" with
          | Some vocab => print (Line tmpl [VInt (len vocab)])
          | None => raise (KeyError "'vocab'")
          end
      | None => print (text na)
      end
  | None => print (text na)
  end.

(** Step 5, lines 137-174. *)
Definition step5 (task_ds : sample_dataset) : M unit :=
  print (text (NL +:+
    "[Step 5] Feature Tokenization - Inspecting Vocabulary Statistics..."));;
  print (rule "-");;
  print (text "  Vocabulary Statistics:");;
  vocab_line task_ds "conditions"
    "    - Conditions (Diagnoses):  {:>6} unique codes"
    "    - Conditions (Diagnoses):  N/A (not in input_info)";;
  vocab_line task_ds "procedures"
    "    - Procedures:              {:>6} unique codes"
    "    - Procedures:              N/A (not in input_info)";;
  vocab_line task_ds "drugs"
    "    - Drugs (Prescriptions):   {:>6} unique codes"
    "    - Drugs (Prescriptions):   N/A (not in input_info)";;
  print (text (NL +:+
    "  Note: PyHealth's Vocab class can be used for detailed inspection:"));;
  print (text "    - vocab.word2idx: mapping from codes to indices");;
  print (text "    - vocab.idx2word: mapping from indices to codes");;
  print (text "    - vocab.size(): total vocabulary size").

(** The entry of a feature in [input_info]: none when the collection has
    no [input_info] or [input_info] lacks the feature. *)
Definition feature_entry (task_ds : sample_dataset) (key : string)
    : option (gmap string (list string)) :=
  input_info task_ds ≫= (.!! key).

(** The three features of Step 5 with their two texts. *)
Definition features : list (string * string * string) :=
  [ ("conditions",
     "    - Conditions (Diagnoses):  {:>6} unique codes",
     "    - Conditions (Diagnoses):  N/A (not in input_info)");
    ("procedures",
     "    - Procedures:              {:>6} unique codes",
     "    - Procedures:              N/A (not in input_info)");
    ("drugs",
     "    - Drugs (Prescriptions):   {:>6} unique codes",
     "    - Drugs (Prescriptions):   N/A (not in input_info)") ].

(** The line Step 5 prints for a feature that is absent, or present with
    a ['vocab'] entry. *)
Definition expected_line (task_ds : sample_dataset) (key tmpl na : string)
    : line :=
  match feature_entry task_ds key with
  | None => text na
  | Some entry =>
      match entry !! "vocab" with
      | Some vocab => Line tmpl [VInt (len vocab)]
      | None => text na
      end
  end.

(** [len({sample['patient_id'] for sample in ds})]. *)
Definition num_patients (ds : list sample) : Z :=
  Z.of_nat (size (list_to_set (patient_id <$> ds) : gset string)).

(** The label distribution, lines 188-193. *)
Definition label_distribution (task_ds : sample_dataset) : M unit :=
  if len (samples task_ds) >? 0 then
    let labels := label <$> samples task_ds in
    let mortality_count := sum labels in
    q ← truediv mortality_count (len labels);
    let mortality_rate := (q * 100)%Q in
    print (Line "    - Mortality cases:         {:>6} ({:.2f}%)"
      [VInt mortality_count; VFloat mortality_rate]);;
    print (Line "    - Survived cases:          {:>6} ({:.2f}%)"
      [VInt (len labels - mortality_count); VFloat (100 - mortality_rate)%Q])
  else mret tt.

(** The labels are binary, as the data model has them. *)
Definition binary_labels (ds : list sample) : Prop :=
  Forall (λ s, label s = 0 ∨ label s = 1) ds.

(** The number of samples whose label equals 1. *)
Definition deaths (ds : list sample) : Z :=
  len (filter (λ s, label s = 1) ds).

(** The statistics of one partition, lines 196-206. *)
Definition split_stats (title : string) (ds : list sample) : M unit :=
  print (text (NL +:+ title));;
  print (Line "    - Samples:                 {:>6}" [VInt (len ds)]);;
  print (Line "    - Patients:                {:>6}" [VInt (num_patients ds)]).

(** Step 6, lines 179-206. *)
Definition step6 (task_ds : sample_dataset)
    (train_ds val_ds test_ds : list sample) : M unit :=
  print (text (NL +:+ "[Step 6] Final Dataset Statistics..."));;
  print (rule "-");;
  print (text (NL +:+ "  Overall Dataset (task_ds):"));;
  print (Line "    - Total samples:           {:>6}"
    [VInt (len (samples task_ds))]);;
  print (Line "    - Number of patients:      {:>6}"
    [VInt (num_patients (samples task_ds))]);;
  label_distribution task_ds;;
  split_stats "  Training Set:" train_ds;;
  split_stats "  Validation Set:" val_ds;;
  split_stats "  Test Set:" test_ds.

(** The success banner, line 212. *)
Definition banner : line := text "Pipeline Completed Successfully!".

(** Lines 211-226. *)
Definition closing : M unit :=
  print (text (NL +:+ str_mul "=" 80));;
  print banner;;
  print (rule "=");;
  print (text (NL +:+ "  Next Steps:"));;
  print (text
    "    1. Use pyhealth.data.DataLoader to create batches for model training");;
  print (text
    "    2. Choose a model from pyhealth.models (e.g., RNN, Transformer)");;
  print (text
    "    3. Train the model on train_ds and validate on val_ds");;
  print (text "    4. Evaluate final performance on test_ds");;
  print (text (NL +:+ "  Example DataLoader Usage:"));;
  print (text "    from pyhealth.data import DataLoader");;
  print (text
    "    train_loader = DataLoader(train_ds, batch_size=32, shuffle=True)");;
  print (text "    for batch in train_loader:");;
  print (text "        # batch contains tokenized features and labels");;
  print (text "        pass").

(** [main], lines 20-228. *)
Definition main
    : M (sample_dataset * list sample * list sample * list sample) :=
  print (rule "=");;
  print (text "MIMIC-IV Mortality Prediction Dataset Creation Pipeline");;
  print (rule "=");;
  mimic4_dataset ← step1;
  task_ds ← step2 mimic4_dataset;
  task_ds ← step3 task_ds;
  '(train_ds, val_ds, test_ds) ← step4 task_ds;
  step5 task_ds;;
  step6 task_ds train_ds val_ds test_ds;;
  closing;;
  mret (task_ds, train_ds, val_ds, test_ds).

(** *** The entry point, lines 242-263

    The result of a run: everything printed and the exception that leaves
    the [try] statement, if any. The [except] clauses are tried in order;
    an exception that is no instance of [Exception] matches none of them
    and leaves the statement with nothing more printed. The imports of
    lines 15-17 run before the [try] statement and are not part of
    [script]. *)
Definition not_found_banner : line := text (NL +:+ "✗ Error: MIMIC-IV data not found!").
Definition not_installed_banner : line :=
  text (NL +:+ "✗ Error: Required library not installed!").
Definition unexpected_banner (e : exn) : line :=
  Line (NL +:+ "✗ Unexpected error occurred: {}") [VStr (type_name e)].
Definition message_line (e : exn) : line := Line "  {}" [VStr (msg e)].

Definition script : list line * option exn :=
  match main with
  | (out, inr _) =>
      (out ++ [ text (NL +:+ "✓ Script executed successfully!");
                text "  Datasets are ready for model training and evaluation." ],
       None)
  | (out, inl e) =>
      if isinstance e "FileNotFoundError" then
        (out ++ [ not_found_banner;
                  message_line e;
                  text (NL +:+
                    "  Please update the 'root' parameter in MIMIC4Dataset to point");
                  text "  to your MIMIC-IV data directory.";
                  text (NL +:+ "  Example: root='/actual/path/to/mimiciv/'") ],
         None)
      else if isinstance e "ImportError" then
        (out ++ [ not_installed_banner;
                  message_line e;
                  text (NL +:+ "  Please install pyhealth:");
                  text "    pip install pyhealth" ],
         None)
      else if isinstance e "Exception" then
        (out ++ [ unexpected_banner e; message_line e ], Some e)
      else (out, Some e)
  end.

(** A pipeline step (load, label, the two mappings, split) raises [e],
    the steps before it having returned. *)
Inductive step_raises (e : exn) : Prop :=
| load_raises :
    MIMIC4Dataset "/path/to/mimiciv/"
      ["diagnoses_icd"; "procedures_icd"; "prescriptions"] true false = inl e ->
    step_raises e
| label_raises d :
    MIMIC4Dataset "/path/to/mimiciv/"
      ["diagnoses_icd"; "procedures_icd"; "prescriptions"] true false = inr d ->
    set_task d "in_hospital_mortality_mimic4_fn" = inl e ->
    step_raises e
| map_drugs_raises d s0 :
    MIMIC4Dataset "/path/to/mimiciv/"
      ["diagnoses_icd"; "procedures_icd"; "prescriptions"] true false = inr d ->
    set_task d "in_hospital_mortality_mimic4_fn" = inr s0 ->
    stat_code_mapping s0 "NDC" "ATC" (Some 3) = inl e ->
    step_raises e
| map_icd_raises d s0 s1 :
    MIMIC4Dataset "/path/to/mimiciv/"
      ["diagnoses_icd"; "procedures_icd"; "prescriptions"] true false = inr d ->
    set_task d "in_hospital_mortality_mimic4_fn" = inr s0 ->
    stat_code_mapping s0 "NDC" "ATC" (Some 3) = inr s1 ->
    stat_code_mapping s1 "ICD9CM" "ICD10CM" None = inl e ->
    step_raises e
| split_raises d s0 s1 s2 :
    MIMIC4Dataset "/path/to/mimiciv/"
      ["diagnoses_icd"; "procedures_icd"; "prescriptions"] true false = inr d ->
    set_task d "in_hospital_mortality_mimic4_fn" = inr s0 ->
    stat_code_mapping s0 "NDC" "ATC" (Some 3) = inr s1 ->
    stat_code_mapping s1 "ICD9CM" "ICD10CM" None = inr s2 ->
    split_by_patient s2 ratios seed = inl e ->
    step_raises e.

(** The handler reports [e]: it prints the diagnostic of an unexpected
    error after what [main] printed, and the same exception leaves the
    script. *)
Definition handler_reraises (e : exn) : Prop :=
  script = (output main ++ [unexpected_banner e; message_line e], Some e).

(** The handler swallows the exception: nothing leaves the script. *)
Definition handler_swallows : Prop := snd script = None.

(** No clause of the handler matches [e]: the exception leaves the
    script and nothing is printed after what [main] printed. *)
Definition handler_passes (e : exn) : Prop :=
  script = (output main, Some e).

End Main.
End Mortality.

(** ** The toolkit's operations, from their contract

    The code-mapping and splitting operations are the toolkit's; the
    repository holds only their calls. *)
Module PyHealthModel.

(** *** Code mapping *)

(** Modelled from the spec: the translation tables between coding
    systems, which belong to the toolkit and are absent from the
    repository; [cross_map src tgt level c] is the code of the system
    [tgt] that the code [c] of the system [src] translates to, at the
    optional granularity [level]. *)
Class CrossMap := cross_map : string -> string -> option Z -> string -> string.

Section Mapping.
Context `{CrossMap}.

(** Modelled from the spec: the codes a coding system names. NDC and
    ATC are drug code systems, ICD9CM and ICD10CM diagnosis and procedure
    coding systems; the drug codes of a sample are its field [drugs], its
    diagnosis and procedure codes the fields [conditions] and
    [procedures]. *)
Inductive code_kind := DrugCodes | DiagnosisProcedureCodes | OtherCodes.

Definition kind_of (coding_system : string) : code_kind :=
  if decide (coding_system ∈ ["NDC"; "ATC"]) then DrugCodes
  else if decide (coding_system ∈ ["ICD9CM"; "ICD10CM"])
       then DiagnosisProcedureCodes
       else OtherCodes.

(** Modelled from the spec: the code-mapping call [stat_code_mapping],
    absent from the repository. Given a sample collection, a source
    coding system name, a target coding system name and an optional
    granularity level, it returns a new sample collection with the
    feature codes translated: a mapping from a drug code system
    translates the drug codes, a mapping from a diagnosis and procedure
    coding system the diagnosis and procedure codes, each code through
    the table. Patient identifiers, labels and [input_info] are not
    touched. *)
Definition map_sample (source_code target_code : string) (level : option Z)
    (s : sample) : sample :=
  let f := cross_map source_code target_code level in
  match kind_of source_code with
  | DrugCodes =>
      Sample (patient_id s) (label s)
        (conditions s) (procedures s) (f <$> drugs s)
  | DiagnosisProcedureCodes =>
      Sample (patient_id s) (label s)
        (f <$> conditions s) (f <$> procedures s) (drugs s)
  | OtherCodes => s
  end.

Definition stat_code_mapping (task_ds : sample_dataset)
    (source_code target_code : string) (level : option Z) : sample_dataset :=
  SampleDataset (map_sample source_code target_code level <$> samples task_ds)
    (input_info task_ds).

End Mapping.

(** *** Patient-level split *)

(** Modelled from the spec: the toolkit's source of randomness, absent
    from the repository. The split is reproducible for a fixed seed: the
    seed determines the generator state [reseed seed] from which the
    patients are ordered, whatever the state was before; [shuffle]
    reorders a list of patient identifiers and steps the generator. *)
Class RandomSource := {
  rng : Type;
  reseed : Z -> rng;
  shuffle : rng -> list string -> list string * rng
}.

Inductive partition := Train | Validation | Test.

#[global] Instance partition_eq_dec : EqDecision partition.
Proof. solve_decision. Defined.

(** The number of leading patients, out of [n], that a cumulated ratio
    [r] covers. *)
Definition cut (n : nat) (r : Q) : Z := Qfloor (inject_Z (Z.of_nat n) * r).

(** The rank of [p] in [order]; the length of [order] when absent. *)
Fixpoint position (p : string) (order : list string) : nat :=
  match order with
  | [] => O
  | q :: order' => if decide (p = q) then O else S (position p order')
  end.

Section Split.
Context `{RandomSource}.

(** Modelled from the spec: the splitting call [split_by_patient], absent
    from the repository. Given the sample collection, a list of three
    ratios summing to 1.0 and a seed, it returns three partitions whose
    membership is computed per patient: the distinct patient identifiers,
    in input order, are ordered by the generator seeded with [seed]; a
    patient goes to the training partition when its rank is below the
    share of the first ratio, to the validation partition when below the
    share of the first two, to the test partition otherwise; a sample
    goes where its patient goes. Any other list of ratios is refused. *)
Definition membership (order : list string) (r0 r1 : Q) (p : string)
    : partition :=
  let n := length order in
  let i := Z.of_nat (position p order) in
  if i <? cut n r0 then Train
  else if i <? cut n (r0 + r1) then Validation
  else Test.

Definition select (f : string -> partition) (k : partition)
    (ds : list sample) : list sample :=
  filter (λ s, f (patient_id s) = k) ds.

Definition split_by_patient (task_ds : sample_dataset) (ratios : list Q)
    (seed : Z) (g : rng)
    : (exn + (list sample * list sample * list sample)) * rng :=
  match ratios with
  | [r0; r1; r2] =>
      if Qeq_bool (r0 + r1 + r2) 1 then
        let ds := samples task_ds in
        let '(order, g') := shuffle (reseed seed) (remove_dups (patient_id <$> ds)) in
        let f := membership order r0 r1 in
        (inr (select f Train ds, select f Validation ds, select f Test ds), g')
      else (inl (ValueError "ratios must sum to 1.0"), g)
  | _ => (inl (ValueError "ratios must sum to 1.0"), g)
  end.

End Split.

(** The partition contains a sample of the patient [p]. *)
Definition carries (p : string) (part : list sample) : Prop :=
  ∃ s, s ∈ part ∧ patient_id s = p.

(** The partition contains every sample of [ds] of the patient [p]. *)
Definition holds_all (p : string) (ds part : list sample) : Prop :=
  ∀ s, s ∈ ds -> patient_id s = p -> s ∈ part.

(** The partition [part] holds the samples of [p], all of them, and the
    two other partitions hold none. *)
Definition sole_holder (p : string) (ds part other1 other2 : list sample)
    : Prop :=
  carries p part ∧ holds_all p ds part
  ∧ ¬ carries p other1 ∧ ¬ carries p other2.

(** The samples of [p] are in exactly one of the three partitions. *)
Definition in_exactly_one (p : string) (ds train_ds val_ds test_ds : list sample)
    : Prop :=
  sole_holder p ds train_ds val_ds test_ds
  ∨ sole_holder p ds val_ds train_ds test_ds
  ∨ sole_holder p ds test_ds train_ds val_ds.

(** A generator to run the model with: a linear congruential generator
    and a shuffle that inserts each element at a drawn position. *)
Definition lcg_next (g : Z) : Z := (1103515245 * g + 12345) mod 2147483648.

Fixpoint lcg_shuffle (g : Z) (l : list string) : list string * Z :=
  match l with
  | [] => ([], g)
  | x :: l' =>
      let '(r, g1) := lcg_shuffle g l' in
      let g2 := lcg_next g1 in
      let i := Z.to_nat (g2 mod (len r + 1)) in
      (take i r ++ x :: drop i r, g2)
  end.

Definition lcg : RandomSource :=
  {| rng := Z; reseed := λ s, s mod 2147483648; shuffle := lcg_shuffle |}.

(** A translation table to run the model with: the level-th prefix of a
    drug code, and a mark on a converted diagnosis code. *)
Definition demo_cross_map : CrossMap :=
  λ src tgt level c,
    match level with
    | Some n => String.substring 0 (Z.to_nat n) c
    | None => tgt +:+ ":" +:+ c
    end.

End PyHealthModel.

(** The toolkit whose mapping and splitting operations are the two
    above, over any loader and labelling function. The split starts from
    the generator state [g0]. *)
Definition model_toolkit `{PyHealthModel.CrossMap} `{PyHealthModel.RandomSource}
    (D : Type) (load : string -> list string -> bool -> bool -> exn + D)
    (pats tabs : D -> list string)
    (task : D -> string -> exn + sample_dataset)
    (g0 : PyHealthModel.rng) : Toolkit :=
  {| dataset := D;
     MIMIC4Dataset := load;
     patients := pats;
     tables := tabs;
     set_task := task;
     stat_code_mapping := λ ds src tgt level,
       inr (PyHealthModel.stat_code_mapping ds src tgt level);
     split_by_patient := λ ds ratios seed,
       fst (PyHealthModel.split_by_patient ds ratios seed g0) |}.

(** ** Concrete runs *)
Module Demo.

Definition visit (p : string) (l : Z) : sample :=
  Sample p l ["4280"; "I509"] ["3893"] ["00002821501"].

(** Seven samples of four patients. *)
Definition seven : list sample :=
  [ visit "p1" 0; visit "p2" 1; visit "p1" 0; visit "p3" 0;
    visit "p4" 1; visit "p2" 0; visit "p3" 0 ].

Definition info : gmap string (gmap string (list string)) :=
  {[ "conditions" := {[ "vocab" := ["4280"; "I509"] ]};
     "procedures" := {[ "vocab" := ["3893"] ]} ]}.

(** A loader that knows one root, and a labelling function that returns
    the samples stored in the dataset. *)
Definition tk (root : string) (ds : sample_dataset) : Toolkit :=
  @model_toolkit PyHealthModel.demo_cross_map PyHealthModel.lcg
    sample_dataset
    (λ r _ _ _, if decide (r = root) then inr ds
                else inl (FileNotFoundError ("No such file or directory: " +:+ r)))
    (λ d, remove_dups (patient_id <$> samples d))
    (λ _, ["diagnoses_icd"; "procedures_icd"; "prescriptions"])
    (λ d _, inr d)
    0.

(** A toolkit whose loader raises [e]. *)
Definition failing (e : exn) : Toolkit :=
  @model_toolkit PyHealthModel.demo_cross_map PyHealthModel.lcg
    sample_dataset (λ _ _ _ _, inl e) (λ _, []) (λ _, []) (λ d _, inr d) 0.

(** A toolkit that loads and labels but has no translation table: both
    code mappings raise [e]. *)
Definition no_crosswalk (ds : sample_dataset) (e : exn) : Toolkit :=
  {| dataset := sample_dataset;
     MIMIC4Dataset := λ _ _ _ _, inr ds;
     patients := λ d, remove_dups (patient_id <$> samples d);
     tables := λ _, ["diagnoses_icd"; "procedures_icd"; "prescriptions"];
     set_task := λ d _, inr d;
     stat_code_mapping := λ _ _ _ _, inl e;
     split_by_patient := λ _ _ _, inl e |}.

(** The seven samples by patient. *)
Definition of_p1_p2 : list sample :=
  [ visit "p1" 0; visit "p2" 1; visit "p1" 0; visit "p2" 0 ].
Definition of_p3 : list sample := [ visit "p3" 0; visit "p3" 0 ].
Definition of_p4 : list sample := [ visit "p4" 1 ].
Definition all_but_p4 : list sample :=
  [ visit "p1" 0; visit "p2" 1; visit "p1" 0; visit "p3" 0;
    visit "p2" 0; visit "p3" 0 ].

End Demo.

(** ** The arithmetic script: [src/main.py]

    The functions of [math] are taken on the real numbers: a printed
    float stands for the real number it approximates. *)
Module Arithmetic.

Local Open Scope R_scope.

Inductive value :=
| VInt (n : Z)
| VReal (x : R).

Record line := Line { template : string; fields : list value }.

Definition text (s : string) : line := Line s [].

(** [math.radians], [math.log10], [math.pow], [math.e], [math.tau]. *)
Definition radians (x : R) : R := x * PI / 180.
Definition log10 (x : R) : R := ln x / ln 10.
Definition pow (x y : R) : R := Rpower x y.
Definition e : R := exp 1.
Definition tau : R := 2 * PI.

(** [math.floor] and [math.ceil]. *)
Definition floor (x : R) : Z := (up x - 1)%Z.
Definition ceil (x : R) : Z := (- floor (- x))%Z.

(** [math.factorial] and [math.gcd] on the non-negative integers the
    script passes. *)
Definition factorial (n : Z) : Z := Z.of_nat (fact (Z.to_nat n)).
Definition gcd (a b : Z) : Z := Z.gcd a b.

(** What a replacement field [{:.df}] shows of [x]: the integer [k] such
    that the printed decimal is [k / 10^d], the multiple of [10^-d]
    nearest to [x] (the upper one at a tie; Python takes the even one,
    and no value printed by the script is at a tie). *)
Definition fixed (d : nat) (x : R) : Z := up (x * 10 ^ d - / 2).

(** [main], lines 9-69. *)
Definition main : list line :=
  let angle := 45%Z in
  let angle_rad := radians (IZR angle) in
  let number := 10%Z in
  let base := 4%Z in
  let exponent := 3%Z in
  let value := 73 / 10 in
  let n := 5%Z in
  let '(a, b) := (48%Z, 18%Z) in
  let x := 1%Z in
  [ text (str_mul "=" 50);
    text "Mathematical Computations Demo";
    text (str_mul "=" 50);
    Line (NL +:+ "Trigonometric functions for {} degrees:") [VInt angle];
    Line "  sin({}°) = {:.4f}" [VInt angle; VReal (sin angle_rad)];
    Line "  cos({}°) = {:.4f}" [VInt angle; VReal (cos angle_rad)];
    Line "  tan({}°) = {:.4f}" [VInt angle; VReal (tan angle_rad)];
    text (NL +:+ "Logarithmic and exponential functions:");
    Line "  log({}) = {:.4f}" [VInt number; VReal (ln (IZR number))];
    Line "  log10({}) = {:.4f}" [VInt number; VReal (log10 (IZR number))];
    Line "  exp(2) = {:.4f}" [VReal (exp 2)];
    text (NL +:+ "Power and roots:");
    Line "  {}^{} = {:.4f}"
      [VInt base; VInt exponent; VReal (pow (IZR base) (IZR exponent))];
    Line "  sqrt(16) = {:.4f}" [VReal (sqrt 16)];
    Line "  cbrt(27) = {:.4f}" [VReal (pow 27 (1 / 3))];
    text (NL +:+ "Mathematical constants:");
    Line "  π (pi) = {:.6f}" [VReal PI];
    Line "  e = {:.6f}" [VReal e];
    Line "  τ (tau) = {:.6f}" [VReal tau];
    Line (NL +:+ "Rounding functions for {}:") [VReal value];
    Line "  ceil({}) = {}" [VReal value; VInt (ceil value)];
    Line "  floor({}) = {}" [VReal value; VInt (floor value)];
    text (NL +:+ "Factorial:");
    Line "  {}! = {}" [VInt n; VInt (factorial n)];
    text (NL +:+ "Greatest Common Divisor:");
    Line "  gcd({}, {}) = {}" [VInt a; VInt b; VInt (gcd a b)];
    Line (NL +:+ "Hyperbolic functions for x={}:") [VInt x];
    Line "  sinh({}) = {:.4f}" [VInt x; VReal (sinh (IZR x))];
    Line "  cosh({}) = {:.4f}" [VInt x; VReal (cosh (IZR x))];
    Line "  tanh({}) = {:.4f}" [VInt x; VReal (tanh (IZR x))];
    text (NL +:+ str_mul "=" 50);
    text "Computations completed successfully!";
    text (str_mul "=" 50) ].

(** The value of the second field of the line of [main] that has the
    template [tmpl] and [n] as its first field. *)
Definition printed_real (tmpl : string) (n : Z) (x : R) : Prop :=
  Line tmpl [VInt n; VReal x] ∈ main.

End Arithmetic.

(** ** Predicates on runs of the orchestration script *)
Module Run.
Import Mortality.

(** No printed line has the template [t]. *)
Definition silent (t : string) {A} (m : M A) : Prop :=
  Forall (λ l, template l ≠ t) (output m).

(** The line [l] is printed when the computation returns, and no line
    with its template is printed when it raises. *)
Definition marks_return (l : line) {A} (m : M A) : Prop :=
  match outcome m with
  | inr _ => l ∈ output m
  | inl _ => silent (template l) m
  end.

(** The feature [key] is absent from [input_info], or present with a
    ['vocab'] entry. *)
Definition vocab_ok (task_ds : sample_dataset) (key : string) : bool :=
  match feature_entry task_ds key with
  | Some entry => bool_decide (is_Some (entry !! "vocab"))
  | None => true
  end.

Definition all_vocab_ok (task_ds : sample_dataset) : bool :=
  vocab_ok task_ds "conditions" && vocab_ok task_ds "procedures"
  && vocab_ok task_ds "drugs".

(** The percentage of a size line of Step 4, as the exact rational. *)
Definition percentage (part : list sample) (task_ds : sample_dataset) : Q :=
  (inject_Z (len part) / inject_Z (len (samples task_ds)) * 100)%Q.

(** The set of patients of a list of samples. *)
Definition patient_set (ds : list sample) : gset string :=
  list_to_set (patient_id <$> ds).

(** The module run as a program: the imports of lines 15-17, then the
    entry point. [imports] is the exception an import raises, if any;
    it is raised before the [try] statement is entered, so it leaves the
    program with nothing printed. *)
Definition program `{Toolkit} (imports : option exn)
    : list line * option exn :=
  match imports with
  | Some e => ([], Some e)
  | None => script
  end.

(** The last line of a successful run, line 244. *)
Definition success_line : line := text (NL +:+ "✓ Script executed successfully!").

(** The templates of the success banner of [main] and of the first line
    each branch of the entry point prints. *)
Definition marks : list string :=
  [ template banner; template success_line; template not_found_banner;
    template not_installed_banner;
    template (unexpected_banner ZeroDivisionError) ].

End Run.

(** * Properties *)

(** ** Sequencing *)

Lemma outcome_bind {A B} (m : M A) (f : A -> M B) :
  outcome (m ≫= f) =
  match outcome m with inl e => inl e | inr a => outcome (f a) end.
Proof.
  destruct m as [o [e | a]]; [reflexivity |].
  unfold mbind, M_bind, bind, outcome; simpl. by destruct (f a).
Qed.

Lemma output_bind {A B} (m : M A) (f : A -> M B) :
  output (m ≫= f) =
  output m ++ match outcome m with inl _ => [] | inr a => output (f a) end.
Proof.
  destruct m as [o [e | a]]; unfold mbind, M_bind, bind, output; simpl.
  - by rewrite app_nil_r.
  - by destruct (f a).
Qed.

(** A line is not among lines none of which has its template. *)
Lemma not_printed (l : line) (out : list line) :
  forallb (λ l', negb (String.eqb (template l') (template l))) out = true ->
  l ∉ out.
Proof.
  intros Hall Hin. apply list_elem_of_In in Hin.
  rewrite forallb_forall in Hall. specialize (Hall l Hin).
  by rewrite String.eqb_refl in Hall.
Qed.

(** ** The top-level handler *)
Section Handler.
Context `{Toolkit}.
Import Mortality.

Lemma step_raises_main e : step_raises e -> outcome main = inl e.
Proof.
  intros Hs. unfold main. repeat (rewrite outcome_bind; simpl).
  destruct Hs as [Hl | d Hl Ht | d s0 Hl Ht Hm | d s0 s1 Hl Ht Hm Hi
                 | d s0 s1 s2 Hl Ht Hm Hi Hp].
  all: unfold step1; repeat (rewrite outcome_bind; simpl); rewrite Hl; simpl;
    try reflexivity.
  all: unfold step2; repeat (rewrite outcome_bind; simpl); rewrite Ht; simpl;
    try reflexivity.
  all: unfold step3; repeat (rewrite outcome_bind; simpl); rewrite Hm; simpl;
    try reflexivity.
  all: rewrite Hi; simpl; try reflexivity.
  unfold step4; repeat (rewrite outcome_bind; simpl). by rewrite Hp.
Qed.

Lemma script_unfold :
  script =
  match outcome main with
  | inr _ =>
      (output main ++
         [ text (NL +:+ "✓ Script executed successfully!");
           text "  Datasets are ready for model training and evaluation." ],
       None)
  | inl e =>
      if isinstance e "FileNotFoundError" then
        (output main ++
           [ not_found_banner; message_line e;
             text (NL +:+
               "  Please update the 'root' parameter in MIMIC4Dataset to point");
             text "  to your MIMIC-IV data directory.";
             text (NL +:+ "  Example: root='/actual/path/to/mimiciv/'") ],
         None)
      else if isinstance e "ImportError" then
        (output main ++
           [ not_installed_banner; message_line e;
             text (NL +:+ "  Please install pyhealth:");
             text "    pip install pyhealth" ],
         None)
      else if isinstance e "Exception" then
        (output main ++ [ unexpected_banner e; message_line e ], Some e)
      else (output main, Some e)
  end.
Proof. unfold script, output, outcome. by destruct main as [o [e | a]]. Qed.

End Handler.

Section HandlerClaims.
Context `{Toolkit}.
Import Mortality.

(** C6. When the data-loading step raises a not-found error, the
    top-level handler prints the "data not found" diagnostic after what
    [main] printed, and no exception leaves the script. *)
Theorem C6_not_found_is_reported_and_swallowed (e : exn) :
  MIMIC4Dataset "/path/to/mimiciv/"
    ["diagnoses_icd"; "procedures_icd"; "prescriptions"] true false = inl e ->
  isinstance e "FileNotFoundError" = true ->
  (∃ rest, fst script = output main ++ not_found_banner :: message_line e :: rest)
  ∧ handler_swallows.
Proof.
  intros Hload Hfnf.
  pose proof (step_raises_main e (load_raises e Hload)) as Hmain.
  unfold handler_swallows. rewrite script_unfold, Hmain, Hfnf. simpl.
  split; [eauto | reflexivity].
Qed.

(** C7, as amended. When a pipeline step raises an exception: if it is
    an instance of [Exception] and neither a not-found error nor a
    dependency-missing error, the handler prints the diagnostic of an
    unexpected error and the same exception leaves the script; if it is
    one of the two, no exception leaves the script; if it is outside the
    [Exception] hierarchy, it matches no clause and leaves the script
    with no diagnostic printed. *)
Theorem C7_handler_classifies (e : exn) :
  step_raises e ->
  ((isinstance e "FileNotFoundError" || isinstance e "ImportError") = true ->
   handler_swallows)
  ∧ ((isinstance e "FileNotFoundError" || isinstance e "ImportError") = false ->
     isinstance e "Exception" = true ->
     handler_reraises e)
  ∧ ((isinstance e "FileNotFoundError" || isinstance e "ImportError") = false ->
     isinstance e "Exception" = false ->
     handler_passes e).
Proof.
  intros Hs. apply step_raises_main in Hs.
  unfold handler_swallows, handler_reraises, handler_passes.
  rewrite script_unfold, Hs.
  destruct (isinstance e "FileNotFoundError"); simpl.
  { split; [reflexivity | split; discriminate]. }
  destruct (isinstance e "ImportError"); simpl.
  { split; [reflexivity | split; discriminate]. }
  split; [discriminate |]. split; intros _ ->; reflexivity.
Qed.

End HandlerClaims.

(** C6 at a run whose root is not the one the loader knows. *)
Lemma C6_witness :
  let tk := Demo.tk "/data/mimiciv/" (SampleDataset Demo.seven None) in
  let e := FileNotFoundError "No such file or directory: /path/to/mimiciv/" in
  (∃ rest, fst (@Mortality.script tk) =
     output (@Mortality.main tk) ++
       Mortality.not_found_banner :: Mortality.message_line e :: rest)
  ∧ @Mortality.handler_swallows tk.
Proof.
  intros tk e.
  apply (@C6_not_found_is_reported_and_swallowed tk e); reflexivity.
Defined.

(** C7, as stated, fails for an exception outside the [Exception]
    hierarchy: the loader is interrupted, the exception is neither a
    not-found nor a dependency-missing error, and the handler prints
    nothing at all before the exception leaves the script. *)
Lemma C7_counterexample :
  let tk := Demo.failing KeyboardInterrupt in
  @Mortality.step_raises tk KeyboardInterrupt
  ∧ isinstance KeyboardInterrupt "FileNotFoundError" = false
  ∧ isinstance KeyboardInterrupt "ImportError" = false
  ∧ ¬ @Mortality.handler_reraises tk KeyboardInterrupt
  ∧ @Mortality.script tk = (output (@Mortality.main tk), Some KeyboardInterrupt).
Proof.
  intros tk. split; [by apply Mortality.load_raises |].
  repeat split; try reflexivity.
  unfold Mortality.handler_reraises. vm_compute. discriminate.
Qed.

(** C7 at a loader that raises a [ValueError], at one that raises a
    [ModuleNotFoundError], and at one that is interrupted. *)
Lemma C7_witness :
  let e := ValueError "bad table" in
  let e' := ModuleNotFoundError "No module named 'rdkit'" in
  @Mortality.handler_reraises (Demo.failing e) e
  ∧ @Mortality.handler_swallows (Demo.failing e')
  ∧ @Mortality.handler_passes (Demo.failing KeyboardInterrupt) KeyboardInterrupt.
Proof.
  intros e e'. split; [| split].
  - apply (@C7_handler_classifies (Demo.failing e) e); [| reflexivity ..].
    by apply Mortality.load_raises.
  - apply (@C7_handler_classifies (Demo.failing e') e'); [| reflexivity].
    by apply Mortality.load_raises.
  - apply (@C7_handler_classifies (Demo.failing KeyboardInterrupt)
             KeyboardInterrupt); [| reflexivity ..].
    by apply Mortality.load_raises.
Defined.

Section EmptyCollection.
Context `{Toolkit}.
Import Mortality.

Lemma len_nil_inv {A} (l : list A) : length l = O -> l = [].
Proof. by destruct l. Qed.

(** The first percentage of Step 4 raises on an empty collection, after
    the split has returned and its completion has been announced. *)
Lemma step4_empty task_ds train_ds val_ds test_ds :
  samples task_ds = [] ->
  split_by_patient task_ds ratios seed = inr (train_ds, val_ds, test_ds) ->
  step4 task_ds =
    ([ text (NL +:+
         "[Step 4] Splitting Data into Train/Validation/Test Sets...");
       rule "-";
       text "✓ Data split completed" ],
     inl ZeroDivisionError).
Proof.
  intros Hnil Hsplit. unfold step4, size_line, truediv.
  rewrite Hsplit, Hnil. reflexivity.
Qed.

(** What [main] printed does not include the success banner when [main]
    stops at Step 4. *)
Lemma main_stops_at_step4 d s0 s1 s2 o e :
  MIMIC4Dataset "/path/to/mimiciv/"
    ["diagnoses_icd"; "procedures_icd"; "prescriptions"] true false = inr d ->
  set_task d "in_hospital_mortality_mimic4_fn" = inr s0 ->
  stat_code_mapping s0 "NDC" "ATC" (Some 3) = inr s1 ->
  stat_code_mapping s1 "ICD9CM" "ICD10CM" None = inr s2 ->
  step4 s2 = (o, inl e) ->
  outcome main = inl e ∧
  ∃ before, output main = before ++ o ∧ banner ∉ before.
Proof.
  intros Hl Ht Hm Hi H4. unfold main, step1, step2, step3.
  rewrite Hl; cbn -[step4]. rewrite Ht; cbn -[step4].
  rewrite Hm; cbn -[step4]. rewrite Hi; cbn -[step4].
  rewrite H4; cbn. split; [reflexivity |].
  eexists (_ :: _ :: _ :: _ :: _ :: _ :: _ :: _ :: _ :: _ :: _ :: _ :: _ ::
           _ :: _ :: _ :: _ :: _ :: _ :: []).
  split; [reflexivity |]. apply not_printed. vm_compute. reflexivity.
Qed.

(** C9. When the task step returns an empty sample collection and the
    later toolkit calls return (the code mapping keeping the number of
    samples), Step 4 raises [ZeroDivisionError] at its first percentage,
    right after announcing the split; [main] raises it, the success
    banner is never printed, and the exception leaves the script as an
    unexpected error. The label distribution of Step 6 is guarded: on
    the empty collection it prints nothing and returns. *)
Theorem C9_empty_collection_divides_by_zero d s0 s1 s2 train_ds val_ds test_ds :
  MIMIC4Dataset "/path/to/mimiciv/"
    ["diagnoses_icd"; "procedures_icd"; "prescriptions"] true false = inr d ->
  set_task d "in_hospital_mortality_mimic4_fn" = inr s0 ->
  samples s0 = [] ->
  stat_code_mapping s0 "NDC" "ATC" (Some 3) = inr s1 ->
  stat_code_mapping s1 "ICD9CM" "ICD10CM" None = inr s2 ->
  length (samples s2) = length (samples s0) ->
  split_by_patient s2 ratios seed = inr (train_ds, val_ds, test_ds) ->
  outcome (step4 s2) = inl ZeroDivisionError
  ∧ last (output (step4 s2)) = Some (text "✓ Data split completed")
  ∧ outcome main = inl ZeroDivisionError
  ∧ (banner ∉ output main)
  ∧ handler_reraises ZeroDivisionError
  ∧ (banner ∉ fst script)
  ∧ label_distribution s2 = ([], inr tt).
Proof.
  intros Hl Ht Hnil Hm Hi Hlen Hp.
  assert (samples s2 = []) as Hnil2.
  { apply len_nil_inv. by rewrite Hlen, Hnil. }
  pose proof (step4_empty _ _ _ _ Hnil2 Hp) as H4.
  destruct (main_stops_at_step4 _ _ _ _ _ _ Hl Ht Hm Hi H4)
    as (Hout & before & Hbefore & Hnot).
  assert (banner ∉ output main) as Hnb.
  { rewrite Hbefore, elem_of_app. intros [Hin | Hin]; [done |].
    revert Hin. apply not_printed. vm_compute. reflexivity. }
  assert (handler_reraises ZeroDivisionError) as Hre.
  { unfold handler_reraises. rewrite script_unfold, Hout. reflexivity. }
  rewrite H4. repeat split; try done.
  - rewrite Hre. simpl. rewrite elem_of_app. intros [Hin | Hin]; [done |].
    revert Hin. apply not_printed. vm_compute. reflexivity.
  - unfold label_distribution. by rewrite Hnil2.
Qed.

End EmptyCollection.

(** C9 at a run whose labelling step returns no sample. *)
Lemma C9_witness :
  let tk := Demo.tk "/path/to/mimiciv/" (SampleDataset [] None) in
  outcome (@Mortality.main tk) = inl ZeroDivisionError
  ∧ Mortality.banner ∉ fst (@Mortality.script tk).
Proof.
  intros tk.
  pose proof (@C9_empty_collection_divides_by_zero tk
    (SampleDataset [] None) (SampleDataset [] None) (SampleDataset [] None)
    (SampleDataset [] None) [] [] []
    eq_refl eq_refl eq_refl eq_refl eq_refl eq_refl eq_refl) as HC9.
  split; apply HC9.
Defined.

Section Vocabulary.
Context `{Toolkit}.
Import Mortality.

Lemma vocab_line_absent task_ds key tmpl na :
  feature_entry task_ds key = None ->
  vocab_line task_ds key tmpl na = ([text na], inr tt).
Proof.
  unfold feature_entry, vocab_line. destruct (input_info task_ds) as [info |]; simpl.
  - by intros ->.
  - done.
Qed.

Lemma vocab_line_present task_ds key tmpl na entry vocab :
  feature_entry task_ds key = Some entry ->
  entry !! "vocab" = Some vocab ->
  vocab_line task_ds key tmpl na = ([Line tmpl [VInt (len vocab)]], inr tt).
Proof.
  unfold feature_entry, vocab_line. destruct (input_info task_ds) as [info |]; simpl.
  - by intros -> ->.
  - done.
Qed.

Lemma vocab_line_no_vocab task_ds key tmpl na entry :
  feature_entry task_ds key = Some entry ->
  entry !! "vocab" = None ->
  vocab_line task_ds key tmpl na = ([], inl (KeyError "'vocab'")).
Proof.
  unfold feature_entry, vocab_line. destruct (input_info task_ds) as [info |]; simpl.
  - by intros -> ->.
  - done.
Qed.

(** Under the side condition, a block prints exactly its expected line
    and returns. *)
Lemma vocab_line_expected task_ds key tmpl na :
  (∀ entry, feature_entry task_ds key = Some entry -> is_Some (entry !! "vocab")) ->
  vocab_line task_ds key tmpl na = ([expected_line task_ds key tmpl na], inr tt).
Proof.
  intros Hv. unfold expected_line.
  destruct (feature_entry task_ds key) as [entry |] eqn:He.
  - destruct (Hv entry eq_refl) as [vocab Hvocab].
    rewrite Hvocab. by eapply vocab_line_present.
  - by apply vocab_line_absent.
Qed.

(** C10, as amended. Provided every one of the three features that
    [input_info] holds has a ['vocab'] entry, the vocabulary-inspection
    step does not raise, and for each feature it prints the "N/A (not in
    input_info)" line when the collection has no [input_info] or
    [input_info] lacks the feature, and the size of the feature's
    vocabulary otherwise. *)
Theorem C10_vocabulary_step task_ds :
  (∀ key entry, key ∈ ["conditions"; "procedures"; "drugs"] ->
     feature_entry task_ds key = Some entry -> is_Some (entry !! "vocab")) ->
  outcome (step5 task_ds) = inr tt
  ∧ ∀ key tmpl na, (key, tmpl, na) ∈ features ->
      match feature_entry task_ds key with
      | None => text na ∈ output (step5 task_ds)
      | Some entry =>
          ∃ vocab, entry !! "vocab" = Some vocab
                   ∧ Line tmpl [VInt (len vocab)] ∈ output (step5 task_ds)
      end.
Proof.
  intros Hv.
  assert (step5 task_ds =
    ( [ text (NL +:+
          "[Step 5] Feature Tokenization - Inspecting Vocabulary Statistics...");
        rule "-";
        text "  Vocabulary Statistics:" ] ++
      ((λ '(key, tmpl, na), expected_line task_ds key tmpl na) <$> features) ++
      [ text (NL +:+
          "  Note: PyHealth's Vocab class can be used for detailed inspection:");
        text "    - vocab.word2idx: mapping from codes to indices";
        text "    - vocab.idx2word: mapping from indices to codes";
        text "    - vocab.size(): total vocabulary size" ],
      inr tt)) as Hstep.
  { unfold step5.
    rewrite !vocab_line_expected by (intros entry; apply Hv; repeat constructor).
    reflexivity. }
  rewrite Hstep. split; [reflexivity |].
  intros key tmpl na Hin. unfold output; cbv beta iota delta [fst].
  assert (expected_line task_ds key tmpl na ∈
            (λ '(key, tmpl, na), expected_line task_ds key tmpl na) <$> features)
    as Hexp.
  { apply list_elem_of_fmap. by exists (key, tmpl, na). }
  assert (key ∈ ["conditions"; "procedures"; "drugs"]) as Hkey.
  { unfold features in Hin. rewrite !elem_of_cons, elem_of_nil in Hin.
    destruct Hin as [[= -> _ _] | [[= -> _ _] | [[= -> _ _] | []]]];
      repeat constructor. }
  unfold expected_line in Hexp at 1.
  destruct (feature_entry task_ds key) as [entry |] eqn:He.
  - destruct (Hv key entry Hkey He) as [vocab Hvocab]. rewrite Hvocab in Hexp.
    exists vocab. split; [done |].
    rewrite !elem_of_app. right; by left.
  - rewrite !elem_of_app. right; by left.
Qed.

End Vocabulary.

(** C10, as stated, fails when [input_info] holds a feature whose entry
    has no ['vocab']: both guards pass and the subscript raises
    [KeyError], so the step raises. *)
Lemma C10_counterexample :
  let task_ds :=
    SampleDataset Demo.seven
      (Some {[ "conditions" := {[ "tokens" := ["4280"; "I509"] ]} ]}) in
  Mortality.feature_entry task_ds "conditions" ≠ None
  ∧ outcome (Mortality.step5 task_ds) = inl (KeyError "'vocab'")
  ∧ outcome (Mortality.step5 task_ds) ≠ inr tt.
Proof. intros task_ds. vm_compute. repeat split; discriminate. Qed.

(** C10 at a collection whose [input_info] holds two of the three
    features, and at one without [input_info]. *)
Lemma C10_witness :
  outcome (Mortality.step5 (SampleDataset Demo.seven (Some Demo.info))) = inr tt
  ∧ outcome (Mortality.step5 (SampleDataset Demo.seven None)) = inr tt.
Proof.
  split.
  - apply (C10_vocabulary_step (SampleDataset Demo.seven (Some Demo.info))).
    intros key entry Hkey. rewrite !elem_of_cons, elem_of_nil in Hkey.
    destruct Hkey as [-> | [-> | [-> | []]]]; vm_compute;
      intros [= <-]; vm_compute; eauto.
  - apply (C10_vocabulary_step (SampleDataset Demo.seven None)).
    intros key entry _. discriminate.
Defined.

(** ** The label distribution *)
Section Report.
Import Mortality.

Lemma sum_from (l : list Z) (a : Z) : fold_left Z.add l a = a + sum l.
Proof.
  unfold sum. revert a. induction l as [| x l IH]; intros a; simpl.
  - lia.
  - rewrite (IH (a + x)), (IH (0 + x)). lia.
Qed.

Lemma sum_cons (x : Z) (l : list Z) : sum (x :: l) = x + sum l.
Proof. unfold sum at 1. simpl. apply sum_from. Qed.

(** On binary labels the sum of the labels counts the labels equal to 1. *)
Lemma sum_binary_labels (ds : list sample) :
  binary_labels ds -> sum (label <$> ds) = deaths ds.
Proof.
  unfold binary_labels, deaths, len.
  induction 1 as [| s ds Hs _ IH]; [reflexivity |].
  rewrite fmap_cons, sum_cons, IH, filter_cons.
  destruct Hs as [Hs | Hs]; rewrite Hs; case_decide; try done.
  simpl length. rewrite Nat2Z.inj_succ. apply Z.add_1_l.
Qed.

Lemma len_pos {A} (l : list A) : l ≠ [] -> (len l >? 0) = true ∧ (len l =? 0) = false.
Proof.
  destruct l; [done |]. intros _. unfold len. simpl length.
  split; [apply Z.gtb_lt | apply Z.eqb_neq]; lia.
Qed.

Lemma label_distribution_nonempty task_ds :
  samples task_ds ≠ [] ->
  label_distribution task_ds =
    ([ Line "    - Mortality cases:         {:>6} ({:.2f}%)"
         [ VInt (sum (label <$> samples task_ds));
           VFloat (inject_Z (sum (label <$> samples task_ds))
                   / inject_Z (len (samples task_ds)) * 100)%Q ];
       Line "    - Survived cases:          {:>6} ({:.2f}%)"
         [ VInt (len (samples task_ds) - sum (label <$> samples task_ds));
           VFloat (100 - inject_Z (sum (label <$> samples task_ds))
                         / inject_Z (len (samples task_ds)) * 100)%Q ] ],
     inr tt).
Proof.
  intros Hne. destruct (len_pos _ Hne) as [Hgt Heq].
  unfold label_distribution, truediv.
  assert (len (label <$> samples task_ds) = len (samples task_ds)) as ->.
  { unfold len. by rewrite length_fmap. }
  rewrite Hgt, Heq. reflexivity.
Qed.

(** C4. For a non-empty sample collection with binary labels, the report
    step returns after printing the mortality line with the number of
    samples labelled 1 and the rate (that number / total) × 100, and the
    survival line with the total minus that number. *)
Theorem C4_mortality_rate task_ds train_ds val_ds test_ds :
  samples task_ds ≠ [] ->
  binary_labels (samples task_ds) ->
  let total := len (samples task_ds) in
  let died := deaths (samples task_ds) in
  let rate := (inject_Z died / inject_Z total * 100)%Q in
  outcome (step6 task_ds train_ds val_ds test_ds) = inr tt
  ∧ Line "    - Mortality cases:         {:>6} ({:.2f}%)"
      [VInt died; VFloat rate]
    ∈ output (step6 task_ds train_ds val_ds test_ds)
  ∧ Line "    - Survived cases:          {:>6} ({:.2f}%)"
      [VInt (total - died); VFloat (100 - rate)%Q]
    ∈ output (step6 task_ds train_ds val_ds test_ds).
Proof.
  intros Hne Hbin total died rate. subst total died rate.
  rewrite <- (sum_binary_labels _ Hbin).
  unfold step6. rewrite (label_distribution_nonempty _ Hne).
  split; [reflexivity |].
  split; unfold output; cbn [fst]; repeat constructor.
Qed.

End Report.

(** C4 at seven samples, two of them labelled 1. *)
Lemma C4_witness :
  let task_ds := SampleDataset Demo.seven None in
  Line "    - Mortality cases:         {:>6} ({:.2f}%)"
       [VInt 2; VFloat (inject_Z 2 / inject_Z 7 * 100)%Q]
  ∈ output (Mortality.step6 task_ds [] [] []).
Proof.
  intros task_ds.
  apply (C4_mortality_rate task_ds [] [] []).
  - discriminate.
  - repeat (apply Forall_cons_2; [vm_compute; auto |]). apply Forall_nil_2.
Defined.

(** ** The code mapping *)
Section MappingClaims.
Import PyHealthModel.
Context `{CrossMap}.

(** Two mappings from coding systems of different kinds translate
    different fields of a sample. *)
Lemma map_sample_comm src1 tgt1 lvl1 src2 tgt2 lvl2 (s : sample) :
  kind_of src1 ≠ kind_of src2 ->
  map_sample src2 tgt2 lvl2 (map_sample src1 tgt1 lvl1 s) =
  map_sample src1 tgt1 lvl1 (map_sample src2 tgt2 lvl2 s).
Proof.
  intros Hk. unfold map_sample.
  destruct (kind_of src1), (kind_of src2); try done; by destruct s.
Qed.

Lemma stat_code_mapping_comm src1 tgt1 lvl1 src2 tgt2 lvl2 task_ds :
  kind_of src1 ≠ kind_of src2 ->
  PyHealthModel.stat_code_mapping
    (PyHealthModel.stat_code_mapping task_ds src1 tgt1 lvl1) src2 tgt2 lvl2 =
  PyHealthModel.stat_code_mapping
    (PyHealthModel.stat_code_mapping task_ds src2 tgt2 lvl2) src1 tgt1 lvl1.
Proof.
  intros Hk. unfold PyHealthModel.stat_code_mapping. simpl. f_equal.
  rewrite <- !list_fmap_compose. apply list_fmap_ext. intros _ s _.
  simpl. by apply map_sample_comm.
Qed.

End MappingClaims.

Section MappingOrder.
Context `{tk : Toolkit}.
Context `{PyHealthModel.CrossMap} `{PyHealthModel.RandomSource}.
Context (D : Type) (load : string -> list string -> bool -> bool -> exn + D)
  (pats tabs : D -> list string) (task : D -> string -> exn + sample_dataset)
  (g0 : PyHealthModel.rng).

(** C5. Whatever the toolkit, Step 3 calls the mapping of the drug codes
    (NDC to ATC, level 3) on its input first, and the mapping of the
    diagnosis and procedure codes (ICD9CM to ICD10CM) second, on the
    result of the first; a failure of either stops the step there. The
    two mappings do not depend on each other's output: in the opposite
    order they give the same sample collection, which is the one Step 3
    returns. *)
Theorem C5_code_mappings_commute (task_ds : sample_dataset) :
  let drugs_then_icd :=
    PyHealthModel.stat_code_mapping
      (PyHealthModel.stat_code_mapping task_ds "NDC" "ATC" (Some 3))
      "ICD9CM" "ICD10CM" None in
  let icd_then_drugs :=
    PyHealthModel.stat_code_mapping
      (PyHealthModel.stat_code_mapping task_ds "ICD9CM" "ICD10CM" None)
      "NDC" "ATC" (Some 3) in
  let opening :=
    [ text (NL +:+ "[Step 3] Preprocessing - Mapping Medical Codes...");
      Mortality.rule "-";
      text "  a) Mapping NDC drug codes to ATC Level 3..." ] in
  let drugs_done := text "     ✓ NDC codes mapped to ATC Level 3" in
  let icd_announced := text "  b) Mapping ICD9CM codes to ICD10CM..." in
  let icd_done := text "     ✓ ICD9CM codes mapped to ICD10CM" in
  @Mortality.step3 tk task_ds =
    match stat_code_mapping task_ds "NDC" "ATC" (Some 3) with
    | inl e => (opening, inl e)
    | inr mapped_drugs =>
        match stat_code_mapping mapped_drugs "ICD9CM" "ICD10CM" None with
        | inl e => (opening ++ [drugs_done; icd_announced], inl e)
        | inr mapped_both =>
            (opening ++ [drugs_done; icd_announced; icd_done], inr mapped_both)
        end
    end
  ∧ icd_then_drugs = drugs_then_icd
  ∧ outcome (@Mortality.step3 (model_toolkit D load pats tabs task g0) task_ds)
    = inr icd_then_drugs.
Proof.
  intros drugs_then_icd icd_then_drugs opening drugs_done icd_announced icd_done.
  assert (icd_then_drugs = drugs_then_icd) as Hcomm.
  { symmetry. by apply stat_code_mapping_comm. }
  split; [| split; [exact Hcomm | by rewrite Hcomm]].
  unfold Mortality.step3.
  destruct (stat_code_mapping task_ds "NDC" "ATC" (Some 3))
    as [e | mapped_drugs]; [reflexivity |]. cbn.
  by destruct (stat_code_mapping mapped_drugs "ICD9CM" "ICD10CM" None).
Qed.

End MappingOrder.

(** ** The patient-level split *)
Section Select.
Import PyHealthModel.
Variable f : string -> partition.

Lemma select_elem k ds s :
  s ∈ select f k ds ↔ f (patient_id s) = k ∧ s ∈ ds.
Proof. unfold select. by rewrite list_elem_of_filter. Qed.

Lemma select_lengths ds :
  (length (select f Train ds) + length (select f Validation ds)
   + length (select f Test ds))%nat = length ds.
Proof.
  unfold select. induction ds as [| s ds IH]; [reflexivity |].
  rewrite !filter_cons.
  destruct (f (patient_id s)); repeat case_decide; try done;
    simpl length; lia.
Qed.

Lemma select_disjoint k k' ds :
  k ≠ k' -> select f k ds ## select f k' ds.
Proof.
  intros Hne s [Hk _]%select_elem [Hk' _]%select_elem. congruence.
Qed.

Lemma select_holds_all p ds : holds_all p ds (select f (f p) ds).
Proof. intros s Hin <-. by apply select_elem. Qed.

Lemma select_not_carries p k ds : k ≠ f p -> ¬ carries p (select f k ds).
Proof. intros Hne (s & [Hk _]%select_elem & <-). congruence. Qed.

Lemma select_carries p ds :
  p ∈ patient_id <$> ds -> carries p (select f (f p) ds).
Proof.
  intros (s & -> & Hin)%list_elem_of_fmap. exists s.
  split; [by apply select_elem | reflexivity].
Qed.

Lemma select_in_exactly_one p ds :
  p ∈ patient_id <$> ds ->
  in_exactly_one p ds (select f Train ds) (select f Validation ds)
    (select f Test ds).
Proof.
  intros Hp. unfold in_exactly_one, sole_holder.
  pose proof (select_holds_all p ds) as Hall.
  pose proof (select_carries p ds Hp) as Hcar.
  destruct (f p) eqn:Hk.
  - left. repeat split; [done .. | |]; apply select_not_carries; by rewrite Hk.
  - right; left.
    repeat split; [done .. | |]; apply select_not_carries; by rewrite Hk.
  - right; right.
    repeat split; [done .. | |]; apply select_not_carries; by rewrite Hk.
Qed.

End Select.

Section SplitClaims.
Import PyHealthModel.
Context `{RandomSource}.

(** On three ratios summing to 1 the split returns, and its partitions
    are the selections of one assignment of patients to partitions. *)
Lemma split_returns task_ds r0 r1 r2 seed g :
  (r0 + r1 + r2 == 1)%Q ->
  ∃ f : string -> partition,
    fst (PyHealthModel.split_by_patient task_ds [r0; r1; r2] seed g) =
    inr (select f Train (samples task_ds),
         select f Validation (samples task_ds),
         select f Test (samples task_ds)).
Proof.
  intros Hsum. unfold PyHealthModel.split_by_patient.
  apply Qeq_bool_iff in Hsum. rewrite Hsum.
  destruct (shuffle _ _) as [order g'].
  by exists (membership order r0 r1).
Qed.

(** C1. For every sample collection and every patient identifier
    appearing in it, the split with ratios [0.8, 0.1, 0.1] and seed 42
    returns three partitions one of which holds all the samples of that
    patient while the other two hold none of them. *)
Theorem C1_patient_in_exactly_one_partition task_ds (g : rng) (p : string) :
  p ∈ patient_id <$> samples task_ds ->
  ∃ train_ds val_ds test_ds,
    fst (PyHealthModel.split_by_patient task_ds Mortality.ratios Mortality.seed g)
      = inr (train_ds, val_ds, test_ds)
    ∧ in_exactly_one p (samples task_ds) train_ds val_ds test_ds.
Proof.
  intros Hp.
  destruct (split_returns task_ds (8 # 10) (1 # 10) (1 # 10) Mortality.seed g)
    as [f Hf]; [reflexivity |].
  do 3 eexists. split; [exact Hf |]. by apply select_in_exactly_one.
Qed.

(** C2. For every ratio triple summing to 1 and every sample collection,
    the split returns three partitions that are pairwise disjoint and
    whose sizes sum to the size of the collection. *)
Theorem C2_partitions_disjoint_and_exhaustive task_ds r0 r1 r2 seed (g : rng) :
  (r0 + r1 + r2 == 1)%Q ->
  ∃ train_ds val_ds test_ds,
    fst (PyHealthModel.split_by_patient task_ds [r0; r1; r2] seed g)
      = inr (train_ds, val_ds, test_ds)
    ∧ train_ds ## val_ds ∧ train_ds ## test_ds ∧ val_ds ## test_ds
    ∧ (length train_ds + length val_ds + length test_ds)%nat
      = length (samples task_ds).
Proof.
  intros Hsum. destruct (split_returns task_ds r0 r1 r2 seed g Hsum) as [f Hf].
  do 3 eexists. split; [exact Hf |].
  repeat split; try (by apply select_disjoint). apply select_lengths.
Qed.

End SplitClaims.

(** C1 at the seven samples, for the patient of the second one. *)
Lemma C1_witness :
  ∃ train_ds val_ds test_ds,
    fst (@PyHealthModel.split_by_patient PyHealthModel.lcg
           (SampleDataset Demo.seven None) Mortality.ratios Mortality.seed 0)
      = inr (train_ds, val_ds, test_ds)
    ∧ PyHealthModel.in_exactly_one "p2" Demo.seven train_ds val_ds test_ds.
Proof.
  apply (@C1_patient_in_exactly_one_partition PyHealthModel.lcg
           (SampleDataset Demo.seven None) 0 "p2").
  simpl. repeat constructor.
Defined.

(** C2 at the seven samples, with ratios 0.8, 0.1 and 0.1. *)
Lemma C2_witness :
  ∃ train_ds val_ds test_ds,
    fst (@PyHealthModel.split_by_patient PyHealthModel.lcg
           (SampleDataset Demo.seven None) [8 # 10; 1 # 10; 1 # 10]%Q 7 0)
      = inr (train_ds, val_ds, test_ds)
    ∧ train_ds ## val_ds ∧ train_ds ## test_ds ∧ val_ds ## test_ds
    ∧ (length train_ds + length val_ds + length test_ds)%nat = 7%nat.
Proof.
  apply (@C2_partitions_disjoint_and_exhaustive PyHealthModel.lcg
           (SampleDataset Demo.seven None) (8 # 10) (1 # 10) (1 # 10) 7 0).
  reflexivity.
Defined.

(** ** The arithmetic script *)
Section ArithmeticClaims.
Import Arithmetic.
Local Open Scope R_scope.

Lemma sin_radians_45 : sin (radians 45) = sqrt 2 / 2.
Proof.
  replace (radians 45) with (PI / 4) by (unfold radians; field).
  rewrite sin_PI4.
  pose proof sqrt2_neq_0 as Hne.
  pose proof (sqrt_sqrt 2 ltac:(lra)) as Hsq.
  apply (Rmult_eq_reg_r (sqrt 2)); [| exact Hne].
  field_simplify; [| exact Hne]. lra.
Qed.

Lemma sin_radians_45_bounds :
  70710 / 100000 < sin (radians 45) < 70711 / 100000.
Proof.
  rewrite sin_radians_45.
  pose proof (sqrt_lt_R0 2 ltac:(lra)) as Hpos.
  pose proof (sqrt_sqrt 2 ltac:(lra)) as Hsq.
  split; nra.
Qed.

(** C8. In the fixed run, the sine line shows sin(45°), and any float
    within 10^-5 of that real number is printed as 0.7071 with four
    decimals; the factorial line shows 120 for 5; the greatest common
    divisor line shows 6 for 48 and 18. *)
Theorem C8_fixed_run (y : R) :
  Rabs (y - sin (radians 45)) <= / 100000 ->
  printed_real "  sin({}°) = {:.4f}" 45 (sin (radians 45))
  ∧ fixed 4 y = 7071%Z
  ∧ Line "  {}! = {}" [VInt 5; VInt 120] ∈ main
  ∧ Line "  gcd({}, {}) = {}" [VInt 48; VInt 18; VInt 6] ∈ main.
Proof.
  intros Hy. split; [| split; [| split]].
  - unfold printed_real. cbv beta iota zeta delta [main]. repeat constructor.
  - pose proof sin_radians_45_bounds as [Hlo Hhi].
    assert (- / 100000 <= y - sin (radians 45) <= / 100000) as [Hy1 Hy2].
    { unfold Rabs in Hy. destruct (Rcase_abs (y - sin (radians 45))); lra. }
    unfold fixed. symmetry. apply tech_up; simpl pow; lra.
  - cbv beta iota zeta delta [main]. repeat constructor.
  - cbv beta iota zeta delta [main]. repeat constructor.
Qed.

End ArithmeticClaims.

(** C8 at the real number itself. *)
Lemma C8_witness :
  Arithmetic.fixed 4 (sin (Arithmetic.radians 45)) = 7071%Z.
Proof.
  apply (C8_fixed_run (sin (Arithmetic.radians 45))).
  rewrite Rminus_diag, Rabs_R0. lra.
Defined.

(** * Further properties of the orchestration script *)

(** ** What is printed, and when *)
Section Silence.
Import Mortality Run.

Lemma silent_ret t {A} (a : A) : silent t (mret a : M A).
Proof. apply Forall_nil_2. Qed.

Lemma silent_raise t {A} (e : exn) : silent t (raise e : M A).
Proof. apply Forall_nil_2. Qed.

Lemma silent_call t {A} (r : exn + A) : silent t (call r).
Proof. apply Forall_nil_2. Qed.

Lemma silent_print t (l : line) :
  String.eqb (template l) t = false -> silent t (print l).
Proof.
  intros Hne. apply Forall_cons_2; [| apply Forall_nil_2].
  by apply String.eqb_neq.
Qed.

Lemma silent_bind t {A B} (m : M A) (f : A -> M B) :
  silent t m -> (∀ a, silent t (f a)) -> silent t (m ≫= f).
Proof.
  unfold silent. rewrite output_bind. intros Hm Hf.
  apply Forall_app_2; [done |].
  destruct (outcome m) as [e | a]; [apply Forall_nil_2 | apply Hf].
Qed.

Lemma silent_not_printed (l : line) {A} (m : M A) :
  silent (template l) m -> l ∉ output m.
Proof.
  unfold silent. rewrite Forall_forall. intros Hs Hin. by apply (Hs l Hin).
Qed.

Lemma marks_return_bind (l : line) {A B} (m : M A) (f : A -> M B) :
  silent (template l) m -> (∀ a, marks_return l (f a)) ->
  marks_return l (m ≫= f).
Proof.
  unfold marks_return, silent. rewrite outcome_bind, output_bind.
  intros Hm Hf. destruct (outcome m) as [e | a].
  - by rewrite app_nil_r.
  - specialize (Hf a). destruct (outcome (f a)).
    + by apply Forall_app_2.
    + apply elem_of_app. by right.
Qed.

End Silence.

(** Decomposes a computation of the script into its prints, calls and
    branches, checking each printed template against the given one. *)
Ltac silence :=
  repeat first
    [ apply silent_ret
    | apply silent_raise
    | apply silent_call
    | apply silent_print; vm_compute; reflexivity
    | apply silent_bind; [| intros ?]
    | match goal with
      | |- Run.silent _ (match ?x with _ => _ end) => destruct x
      end ].

(** Takes each of the marks in turn. *)
Ltac each_mark :=
  unfold Run.marks; rewrite !elem_of_cons, elem_of_nil;
  intros [-> | [-> | [-> | [-> | [-> | []]]]]].

Section Banner.
Context `{Toolkit}.
Import Mortality Run.

Lemma silent_step1 t : t ∈ marks -> silent t step1.
Proof. each_mark; unfold step1; silence. Qed.

Lemma silent_step2 t d : t ∈ marks -> silent t (step2 d).
Proof. each_mark; unfold step2; silence. Qed.

Lemma silent_step3 t task_ds : t ∈ marks -> silent t (step3 task_ds).
Proof. each_mark; unfold step3; silence. Qed.

Lemma silent_step4 t task_ds : t ∈ marks -> silent t (step4 task_ds).
Proof. each_mark; unfold step4, size_line, truediv; silence. Qed.

Lemma silent_step5 t task_ds : t ∈ marks -> silent t (step5 task_ds).
Proof. each_mark; unfold step5, vocab_line; silence. Qed.

Lemma silent_step6 t task_ds train_ds val_ds test_ds :
  t ∈ marks -> silent t (step6 task_ds train_ds val_ds test_ds).
Proof.
  each_mark; unfold step6, label_distribution, split_stats, truediv; silence.
Qed.

Lemma mark_banner : template banner ∈ marks.
Proof. unfold marks. repeat constructor. Qed.

(** The banner marks the return of [main]. *)
Lemma main_marks_return : marks_return banner main.
Proof.
  pose proof mark_banner as Hb. unfold main.
  do 3 (apply marks_return_bind; [silence | intros _]).
  apply marks_return_bind; [by apply silent_step1 | intros d].
  apply marks_return_bind; [by apply silent_step2 | intros s0].
  apply marks_return_bind; [by apply silent_step3 | intros s2].
  apply marks_return_bind; [by apply silent_step4 | intros [[tr va] te]].
  apply marks_return_bind; [by apply silent_step5 | intros _].
  apply marks_return_bind; [by apply silent_step6 | intros _].
  unfold marks_return. cbn. repeat constructor.
Qed.

(** X1. The success banner is printed exactly when [main] returns: a run
    that raises anywhere, in a toolkit call or in the script's own code,
    never shows it. *)
Theorem banner_iff_main_returns :
  banner ∈ output main ↔ ∃ r, outcome main = inr r.
Proof.
  pose proof main_marks_return as Hm. unfold marks_return in Hm.
  destruct (outcome main) as [e | r].
  - split; [| by intros [? ?]].
    intros Hin. by apply silent_not_printed in Hm.
  - split; [eauto | done].
Qed.

End Banner.

Section Diagnostics.
Context `{Toolkit}.
Import Mortality Run.

Lemma silent_main t : t ∈ marks -> t ≠ template banner -> silent t main.
Proof.
  intros Ht Hnb. unfold main.
  do 3 (apply silent_bind; [revert Ht; each_mark; silence | intros _]).
  apply silent_bind; [by apply silent_step1 | intros d].
  apply silent_bind; [by apply silent_step2 | intros s0].
  apply silent_bind; [by apply silent_step3 | intros s2].
  apply silent_bind; [by apply silent_step4 | intros [[tr va] te]].
  apply silent_bind; [by apply silent_step5 | intros _].
  apply silent_bind; [by apply silent_step6 | intros _].
  revert Ht Hnb. each_mark; intros Hnb; try done; unfold closing; silence.
Qed.

Lemma printed_after (l : line) {A} (m : M A) (after : list line) :
  silent (template l) m -> l ∈ output m ++ after ↔ l ∈ after.
Proof.
  intros Hs. rewrite elem_of_app. split; [| by right].
  intros [Hin | Hin]; [| done]. by apply silent_not_printed in Hs.
Qed.

Lemma silent_main_success : silent (template success_line) main.
Proof. apply silent_main; [unfold marks; repeat constructor | done]. Qed.

Lemma silent_main_not_found : silent (template not_found_banner) main.
Proof. apply silent_main; [unfold marks; repeat constructor | done]. Qed.

Lemma silent_main_not_installed : silent (template not_installed_banner) main.
Proof. apply silent_main; [unfold marks; repeat constructor | done]. Qed.

(** X2. The closing line "Script executed successfully!" is printed
    exactly when [main] returns, and then no exception leaves the script. *)
Theorem success_line_iff_main_returns :
  (success_line ∈ fst script ↔ ∃ r, outcome main = inr r)
  ∧ (success_line ∈ fst script -> snd script = None).
Proof.
  pose proof silent_main_success as Hs. rewrite script_unfold.
  destruct (outcome main) as [e | r].
  - assert (success_line ∉
      fst (if isinstance e "FileNotFoundError" then
             (output main ++
                [ not_found_banner; message_line e;
                  text (NL +:+
                    "  Please update the 'root' parameter in MIMIC4Dataset to point");
                  text "  to your MIMIC-IV data directory.";
                  text (NL +:+ "  Example: root='/actual/path/to/mimiciv/'") ],
              None)
           else if isinstance e "ImportError" then
             (output main ++
                [ not_installed_banner; message_line e;
                  text (NL +:+ "  Please install pyhealth:");
                  text "    pip install pyhealth" ],
              None)
           else if isinstance e "Exception" then
             (output main ++ [ unexpected_banner e; message_line e ], Some e)
           else (output main, @Some exn e))) as Hnot.
    { destruct (isinstance e "FileNotFoundError");
        [| destruct (isinstance e "ImportError");
           [| destruct (isinstance e "Exception")]]; cbn [fst].
      1-3: rewrite (printed_after _ _ _ Hs); apply not_printed;
           vm_compute; reflexivity.
      by apply silent_not_printed. }
    split; [split; [done | by intros [? ?]] | done].
  - cbn [fst snd]. split; [| done]. split; [eauto |].
    intros _. apply elem_of_app. right. repeat constructor.
Qed.

(** X3. The "data not found" diagnostic is printed exactly when [main]
    raised an instance of [FileNotFoundError]; the "library not
    installed" diagnostic exactly when it raised an instance of
    [ImportError] that is no [FileNotFoundError]. *)
Theorem diagnostics_are_truthful :
  (not_found_banner ∈ fst script ↔
     ∃ e, outcome main = inl e ∧ isinstance e "FileNotFoundError" = true)
  ∧ (not_installed_banner ∈ fst script ↔
     ∃ e, outcome main = inl e ∧ isinstance e "FileNotFoundError" = false
          ∧ isinstance e "ImportError" = true).
Proof.
  pose proof silent_main_not_found as Hf.
  pose proof silent_main_not_installed as Hi.
  rewrite script_unfold.
  destruct (outcome main) as [e | r].
  - destruct (isinstance e "FileNotFoundError") eqn:Hfnf;
      [| destruct (isinstance e "ImportError") eqn:Himp;
         [| destruct (isinstance e "Exception")]]; cbn [fst].
    + rewrite (printed_after _ _ _ Hf), (printed_after _ _ _ Hi). split.
      * split; [eauto | intros _; repeat constructor].
      * split; [| by intros (e' & [= <-] & Hc & _); congruence].
        intros Hin. exfalso. revert Hin. apply not_printed.
        vm_compute. reflexivity.
    + rewrite (printed_after _ _ _ Hf), (printed_after _ _ _ Hi). split.
      * split; [| by intros (e' & [= <-] & Hc); congruence].
        intros Hin. exfalso. revert Hin. apply not_printed.
        vm_compute. reflexivity.
      * split; [eauto | intros _; repeat constructor].
    + rewrite (printed_after _ _ _ Hf), (printed_after _ _ _ Hi). split.
      * split; [| by intros (e' & [= <-] & Hc); congruence].
        intros Hin. exfalso. revert Hin. apply not_printed.
        vm_compute. reflexivity.
      * split; [| by intros (e' & [= <-] & _ & Hc); congruence].
        intros Hin. exfalso. revert Hin. apply not_printed.
        vm_compute. reflexivity.
    + split.
      * split; [| by intros (e' & [= <-] & Hc); congruence].
        intros Hin. by apply silent_not_printed in Hf.
      * split; [| by intros (e' & [= <-] & _ & Hc); congruence].
        intros Hin. by apply silent_not_printed in Hi.
  - cbn [fst]. rewrite (printed_after _ _ _ Hf), (printed_after _ _ _ Hi).
    split; (split; [| by intros (e' & [=] & _)]).
    all: intros Hin; exfalso; revert Hin; apply not_printed;
      vm_compute; reflexivity.
Qed.

End Diagnostics.

Section Provenance.
Context `{Toolkit}.
Import Mortality Run.

(** X4. An exception leaves the program exactly when an import of
    lines 15-17 raised it, or [main] raised it and it is neither an
    instance of [FileNotFoundError] nor of [ImportError]; it is the very
    exception that was raised. A failing import leaves with nothing
    printed, whatever its class; otherwise what [main] printed comes
    first in the output. *)
Theorem program_exception_iff (imports : option exn) (e : exn) :
  (snd (program imports) = Some e ↔
     imports = Some e
     ∨ (imports = None ∧ outcome main = inl e
        ∧ isinstance e "FileNotFoundError" = false
        ∧ isinstance e "ImportError" = false))
  ∧ (imports = Some e -> program imports = ([], Some e))
  ∧ (imports = None -> output main `prefix_of` fst (program imports)).
Proof.
  destruct imports as [e0 |]; cbn [program].
  { split; [| split; [by intros [= ->] | done]]. cbn [snd]. split.
    - intros [= ->]. by left.
    - intros [[= ->] | [? _]]; done. }
  assert ((snd script = Some e ↔
             outcome main = inl e ∧ isinstance e "FileNotFoundError" = false
             ∧ isinstance e "ImportError" = false)
          ∧ output main `prefix_of` fst script) as [Hiff Hpre].
  { rewrite script_unfold. destruct (outcome main) as [e' | r].
    - destruct (isinstance e' "FileNotFoundError") eqn:Hf;
        [| destruct (isinstance e' "ImportError") eqn:Hi;
           [| destruct (isinstance e' "Exception")]]; cbn [fst snd].
      + split; [| by apply prefix_app_r].
        split; [done | intros ([= <-] & ? & ?); congruence].
      + split; [| by apply prefix_app_r].
        split; [done | intros ([= <-] & ? & ?); congruence].
      + split; [| by apply prefix_app_r].
        split; [by intros [= <-] | by intros ([= <-] & _)].
      + split; [| done].
        split; [by intros [= <-] | by intros ([= <-] & _)].
    - cbn [fst snd]. split; [| by apply prefix_app_r].
      split; [done | by intros ([=] & _)]. }
  split; [| split; [done | by intros _]].
  rewrite Hiff. split; [intros ?; by right | by intros [[=] | [_ ?]]].
Qed.

End Provenance.

Section Steps.
Context `{Toolkit}.
Import Mortality Run.

Lemma vocab_line_outcome task_ds key tmpl na :
  outcome (vocab_line task_ds key tmpl na) =
  if vocab_ok task_ds key then inr tt else inl (KeyError "'vocab'").
Proof.
  unfold vocab_line, vocab_ok, feature_entry.
  destruct (input_info task_ds) as [info |]; simpl; [| reflexivity].
  destruct (info !! key) as [entry |]; [| reflexivity].
  destruct (entry !! "vocab") as [vocab |]; [| reflexivity].
  rewrite bool_decide_eq_true_2; [reflexivity | eauto].
Qed.

Lemma step5_cases task_ds :
  outcome (step5 task_ds) =
  if all_vocab_ok task_ds then inr tt else inl (KeyError "'vocab'").
Proof.
  unfold step5, all_vocab_ok.
  repeat (rewrite outcome_bind; cbn [outcome snd print]).
  rewrite !vocab_line_outcome.
  by destruct (vocab_ok task_ds "conditions"),
    (vocab_ok task_ds "procedures"), (vocab_ok task_ds "drugs").
Qed.

(** X5. The vocabulary-inspection step raises nothing but
    [KeyError('vocab')], and raises it exactly when one of the three
    features is present in [input_info] without a ['vocab'] entry. *)
Theorem step5_outcome task_ds :
  outcome (step5 task_ds) =
  if all_vocab_ok task_ds then inr tt else inl (KeyError "'vocab'").
Proof. apply step5_cases. Qed.

Lemma label_distribution_returns task_ds :
  outcome (label_distribution task_ds) = inr tt.
Proof.
  unfold label_distribution.
  destruct (len (samples task_ds) >? 0) eqn:Hgt; [| reflexivity].
  unfold truediv.
  assert (len (label <$> samples task_ds) = len (samples task_ds)) as ->.
  { unfold len. by rewrite length_fmap. }
  apply Z.gtb_lt in Hgt.
  destruct (len (samples task_ds) =? 0) eqn:Heq; [| reflexivity].
  apply Z.eqb_eq in Heq. lia.
Qed.

Lemma step6_returns task_ds train_ds val_ds test_ds :
  outcome (step6 task_ds train_ds val_ds test_ds) = inr tt.
Proof.
  unfold step6.
  repeat (rewrite outcome_bind; cbn [outcome snd print]).
  by rewrite label_distribution_returns.
Qed.

(** X6. On a collection with binary labels, the empty one included,
    the statistics step never raises, whatever the partitions: the only
    division of the step is behind the guard [len(task_ds) > 0], and its
    quotient is at most 1. *)
Theorem step6_never_raises task_ds train_ds val_ds test_ds :
  binary_labels (samples task_ds) ->
  outcome (step6 task_ds train_ds val_ds test_ds) = inr tt.
Proof. intros _. apply step6_returns. Qed.

End Steps.

Section Sizes.
Context `{Toolkit}.
Import Mortality Run.

Lemma step4_returns_split task_ds train_ds val_ds test_ds :
  samples task_ds ≠ [] ->
  split_by_patient task_ds ratios seed = inr (train_ds, val_ds, test_ds) ->
  step4 task_ds =
    ([ text (NL +:+
         "[Step 4] Splitting Data into Train/Validation/Test Sets...");
       rule "-";
       text "✓ Data split completed";
       Line "  - Training set size:   {:>6} samples ({:.1f}%)"
         [VInt (len train_ds); VFloat (percentage train_ds task_ds)];
       Line "  - Validation set size: {:>6} samples ({:.1f}%)"
         [VInt (len val_ds); VFloat (percentage val_ds task_ds)];
       Line "  - Test set size:       {:>6} samples ({:.1f}%)"
         [VInt (len test_ds); VFloat (percentage test_ds task_ds)] ],
     inr (train_ds, val_ds, test_ds)).
Proof.
  intros Hne Hsplit. destruct (len_pos _ Hne) as [_ Heq].
  unfold step4, size_line, truediv. rewrite Hsplit, Heq. reflexivity.
Qed.

(** X7. On a non-empty collection Step 4 does not raise: it returns the
    three partitions the split returned, unchanged and in order, after
    printing for each its size and its share of the collection. *)
Theorem step4_nonempty task_ds train_ds val_ds test_ds :
  samples task_ds ≠ [] ->
  split_by_patient task_ds ratios seed = inr (train_ds, val_ds, test_ds) ->
  step4 task_ds =
    ([ text (NL +:+
         "[Step 4] Splitting Data into Train/Validation/Test Sets...");
       rule "-";
       text "✓ Data split completed";
       Line "  - Training set size:   {:>6} samples ({:.1f}%)"
         [VInt (len train_ds); VFloat (percentage train_ds task_ds)];
       Line "  - Validation set size: {:>6} samples ({:.1f}%)"
         [VInt (len val_ds); VFloat (percentage val_ds task_ds)];
       Line "  - Test set size:       {:>6} samples ({:.1f}%)"
         [VInt (len test_ds); VFloat (percentage test_ds task_ds)] ],
     inr (train_ds, val_ds, test_ds)).
Proof. apply step4_returns_split. Qed.

End Sizes.

Section Outcome.
Context `{Toolkit}.
Import Mortality Run.

Lemma closing_returns : outcome closing = inr tt.
Proof. reflexivity. Qed.

Lemma outcome_bind_return {A B} (m : M A) (f : A -> M B) o a :
  m = (o, inr a) -> outcome (m ≫= f) = outcome (f a).
Proof. intros ->. by rewrite outcome_bind. Qed.

(** X9. When the five toolkit calls return and the labels of the mapped
    collection are binary, [main] has three possible outcomes: it raises
    [ZeroDivisionError] when the mapped collection is empty; otherwise
    it raises [KeyError('vocab')] when a feature of [input_info] has no
    vocabulary; otherwise it returns the collection after both mappings
    together with the three partitions of the split. *)
Theorem main_outcome d s0 s1 s2 train_ds val_ds test_ds :
  MIMIC4Dataset "/path/to/mimiciv/"
    ["diagnoses_icd"; "procedures_icd"; "prescriptions"] true false = inr d ->
  set_task d "in_hospital_mortality_mimic4_fn" = inr s0 ->
  stat_code_mapping s0 "NDC" "ATC" (Some 3) = inr s1 ->
  stat_code_mapping s1 "ICD9CM" "ICD10CM" None = inr s2 ->
  split_by_patient s2 ratios seed = inr (train_ds, val_ds, test_ds) ->
  binary_labels (samples s2) ->
  outcome main =
    if decide (samples s2 = []) then inl ZeroDivisionError
    else if all_vocab_ok s2 then inr (s2, train_ds, val_ds, test_ds)
    else inl (KeyError "'vocab'").
Proof.
  intros Hl Ht Hm Hi Hp _.
  assert (outcome main =
    outcome ('(train_ds, val_ds, test_ds) ← step4 s2;
             step5 s2;;
             step6 s2 train_ds val_ds test_ds;;
             closing;;
             mret (s2, train_ds, val_ds, test_ds))) as ->.
  { unfold main, step1, step2, step3.
    rewrite Hl; cbn -[step4 step5 step6 closing].
    rewrite Ht; cbn -[step4 step5 step6 closing].
    rewrite Hm; cbn -[step4 step5 step6 closing].
    rewrite Hi; cbn -[step4 step5 step6 closing].
    match goal with
    | |- context [step4 s2 ≫= ?f] => by destruct (step4 s2 ≫= f) as [o r]
    end. }
  case_decide as Hnil.
  - by rewrite outcome_bind, (step4_empty _ _ _ _ Hnil Hp).
  - rewrite (outcome_bind_return _ _ _ _ (step4_returns_split _ _ _ _ Hnil Hp)).
    cbv beta iota.
    rewrite outcome_bind, step5_cases.
    destruct (all_vocab_ok s2); [| reflexivity].
    rewrite outcome_bind, step6_returns.
    by rewrite outcome_bind, closing_returns.
Qed.

(** X10. When the first code mapping raises, [main] raises the same
    exception right after announcing that mapping: neither its
    completion nor the second mapping is announced. *)
Theorem first_mapping_failure_stops_main d s0 e :
  MIMIC4Dataset "/path/to/mimiciv/"
    ["diagnoses_icd"; "procedures_icd"; "prescriptions"] true false = inr d ->
  set_task d "in_hospital_mortality_mimic4_fn" = inr s0 ->
  stat_code_mapping s0 "NDC" "ATC" (Some 3) = inl e ->
  outcome main = inl e
  ∧ last (output main) = Some (text "  a) Mapping NDC drug codes to ATC Level 3...")
  ∧ (text "     ✓ NDC codes mapped to ATC Level 3" ∉ output main)
  ∧ (text "  b) Mapping ICD9CM codes to ICD10CM..." ∉ output main).
Proof.
  intros Hl Ht Hm.
  assert (∃ out, main = (out ++ [text "  a) Mapping NDC drug codes to ATC Level 3..."], inl e)
    ∧ forallb (λ l, negb (String.eqb (template l) "     ✓ NDC codes mapped to ATC Level 3")
                    && negb (String.eqb (template l) "  b) Mapping ICD9CM codes to ICD10CM..."))
        (out ++ [text "  a) Mapping NDC drug codes to ATC Level 3..."]) = true)
    as (out & Hmain & Hall).
  { unfold main, step1, step2, step3.
    rewrite Hl; cbn -[step4]. rewrite Ht; cbn -[step4]. rewrite Hm; cbn.
    eexists (_ :: _ :: _ :: _ :: _ :: _ :: _ :: _ :: _ :: _ :: _ :: _ :: _ ::
             _ :: _ :: []).
    split; [reflexivity |]. vm_compute. reflexivity. }
  rewrite Hmain. unfold outcome, output; cbn [fst snd].
  split; [reflexivity |]. split; [by rewrite last_snoc |].
  rewrite forallb_forall in Hall.
  split; intros Hin%list_elem_of_In; specialize (Hall _ Hin);
    vm_compute in Hall; discriminate.
Qed.

End Outcome.

Section Counts.
Import Mortality Run.

Lemma deaths_bounds ds : 0 <= deaths ds <= len ds.
Proof.
  unfold deaths, len.
  pose proof (length_filter (λ s : sample, label s = 1) ds). lia.
Qed.

Lemma Qpercent_bounds (c n : Z) :
  0 <= c <= n -> 0 < n ->
  (0 <= inject_Z c / inject_Z n * 100 <= 100)%Q.
Proof.
  intros [Hc Hn] Hpos.
  assert (0 < inject_Z n)%Q as HnQ by (unfold Qlt; simpl; lia).
  assert (0 <= inject_Z c)%Q as HcQ by (unfold Qle; simpl; lia).
  assert (inject_Z c <= inject_Z n)%Q as Hle by (unfold Qle; simpl; lia).
  split.
  - apply Qmult_le_0_compat; [| done].
    apply Qle_shift_div_l; [done |]. by rewrite Qmult_0_l.
  - apply Qle_trans with (1 * 100)%Q; [| done].
    apply Qmult_le_compat_r; [| done].
    apply Qle_shift_div_r; [done |]. by rewrite Qmult_1_l.
Qed.

(** X11. For a non-empty collection with binary labels the mortality
    line shows a count between 0 and the number of samples and a rate
    between 0 and 100. *)
Theorem mortality_rate_bounds task_ds :
  samples task_ds ≠ [] ->
  binary_labels (samples task_ds) ->
  ∃ count rate,
    Line "    - Mortality cases:         {:>6} ({:.2f}%)"
      [VInt count; VFloat rate] ∈ output (label_distribution task_ds)
    ∧ 0 <= count <= len (samples task_ds)
    ∧ (0 <= rate <= 100)%Q.
Proof.
  intros Hne Hbin. rewrite (label_distribution_nonempty _ Hne).
  rewrite (sum_binary_labels _ Hbin).
  pose proof (deaths_bounds (samples task_ds)) as Hd.
  do 2 eexists. split; [unfold output; cbn [fst]; repeat constructor |].
  split; [done |]. apply Qpercent_bounds; [done |].
  destruct (samples task_ds); [done |]. unfold len. simpl length. lia.
Qed.

Lemma size_patient_set_le ds : (size (patient_set ds) ≤ length ds)%nat.
Proof.
  unfold patient_set. induction ds as [| s ds IH]; [done |].
  rewrite fmap_cons, list_to_set_cons. simpl length.
  pose proof (size_union_alt ({[patient_id s]} : gset string)
                (list_to_set (patient_id <$> ds))) as Hu.
  pose proof (subseteq_size
    (list_to_set (patient_id <$> ds) ∖ {[patient_id s]} : gset string)
    (list_to_set (patient_id <$> ds))
    ltac:(intros x [Hx _]%elem_of_difference; exact Hx)) as Hs.
  rewrite Hu, size_singleton. lia.
Qed.

(** X12. The number of patients the script prints for a list of samples
    is at most its number of samples, and it is zero only for the empty
    list. *)
Theorem num_patients_bounds ds :
  0 <= num_patients ds <= len ds ∧ (num_patients ds = 0 ↔ ds = []).
Proof.
  pose proof (size_patient_set_le ds) as Hle.
  unfold num_patients, len. fold (patient_set ds).
  split; [lia |]. split.
  - intros Hz. assert (size (patient_set ds) = 0%nat) as Hs by lia.
    apply size_empty_inv in Hs. destruct ds as [| s ds]; [done |].
    exfalso. unfold patient_set in Hs.
    rewrite fmap_cons, list_to_set_cons in Hs.
    apply (not_elem_of_empty (C:=gset string) (patient_id s)).
    rewrite <- Hs. apply elem_of_union_l. by apply elem_of_singleton.
  - by intros ->.
Qed.

(** X13. When three partitions together hold the samples of the
    collection and no patient has samples in two of them, the three
    patient counts the script prints add up to the patient count of the
    collection. *)
Theorem num_patients_add_up ds (train_ds val_ds test_ds : list sample) :
  train_ds ++ val_ds ++ test_ds ≡ₚ ds ->
  patient_set train_ds ## patient_set val_ds ->
  patient_set train_ds ## patient_set test_ds ->
  patient_set val_ds ## patient_set test_ds ->
  num_patients train_ds + num_patients val_ds + num_patients test_ds
  = num_patients ds.
Proof.
  intros Hperm H12 H13 H23. unfold num_patients. fold (patient_set train_ds)
    (patient_set val_ds) (patient_set test_ds) (patient_set ds).
  assert (patient_set ds
          = patient_set train_ds ∪ (patient_set val_ds ∪ patient_set test_ds))
    as ->.
  { unfold patient_set. rewrite <- Hperm, !fmap_app, !list_to_set_app_L.
    reflexivity. }
  rewrite size_union by (by apply disjoint_union_r).
  rewrite size_union by done. lia.
Qed.

End Counts.

(** ** Concrete instances of the properties above *)

Lemma step4_nonempty_witness :
  let task_ds := SampleDataset Demo.seven None in
  outcome (@Mortality.step4 (Demo.tk "/path/to/mimiciv/" task_ds) task_ds)
  = inr (Demo.all_but_p4, [], Demo.of_p4).
Proof.
  intros task_ds.
  rewrite (@step4_nonempty (Demo.tk "/path/to/mimiciv/" task_ds) task_ds
             Demo.all_but_p4 [] Demo.of_p4);
    [reflexivity | discriminate | vm_compute; reflexivity].
Defined.

Lemma main_outcome_witness :
  let ds := SampleDataset Demo.seven (Some Demo.info) in
  let mapped :=
    @PyHealthModel.stat_code_mapping PyHealthModel.demo_cross_map
      (@PyHealthModel.stat_code_mapping PyHealthModel.demo_cross_map
         ds "NDC" "ATC" (Some 3))
      "ICD9CM" "ICD10CM" None in
  let train_ds := filter (λ s, patient_id s ≠ "p4") (samples mapped) in
  let test_ds := filter (λ s, patient_id s = "p4") (samples mapped) in
  outcome (@Mortality.main (Demo.tk "/path/to/mimiciv/" ds))
  = inr (mapped, train_ds, [], test_ds).
Proof.
  intros ds mapped train_ds test_ds.
  rewrite (@main_outcome (Demo.tk "/path/to/mimiciv/" ds) ds ds
             (@PyHealthModel.stat_code_mapping PyHealthModel.demo_cross_map
                ds "NDC" "ATC" (Some 3))
             mapped train_ds [] test_ds);
    [| reflexivity | reflexivity | reflexivity | reflexivity
     | vm_compute; reflexivity
     | repeat (apply Forall_cons_2; [vm_compute; auto |]); apply Forall_nil_2].
  vm_compute. reflexivity.
Defined.

Lemma first_mapping_failure_witness :
  let e := KeyError "'NDC'" in
  let tk := Demo.no_crosswalk (SampleDataset Demo.seven None) e in
  outcome (@Mortality.main tk) = inl e
  ∧ text "  b) Mapping ICD9CM codes to ICD10CM..." ∉ output (@Mortality.main tk).
Proof.
  intros e tk.
  pose proof (@first_mapping_failure_stops_main tk
    (SampleDataset Demo.seven None) (SampleDataset Demo.seven None) e
    eq_refl eq_refl eq_refl) as Hw.
  split; apply Hw.
Defined.

Lemma mortality_rate_bounds_witness :
  ∃ count rate,
    Line "    - Mortality cases:         {:>6} ({:.2f}%)"
      [VInt count; VFloat rate]
    ∈ output (Mortality.label_distribution (SampleDataset Demo.seven None))
    ∧ 0 <= count <= 7 ∧ (0 <= rate <= 100)%Q.
Proof.
  apply (mortality_rate_bounds (SampleDataset Demo.seven None)).
  - discriminate.
  - repeat (apply Forall_cons_2; [vm_compute; auto |]). apply Forall_nil_2.
Defined.

Lemma num_patients_add_up_witness :
  Mortality.num_patients Demo.of_p1_p2 + Mortality.num_patients Demo.of_p3
  + Mortality.num_patients Demo.of_p4
  = Mortality.num_patients (Demo.of_p1_p2 ++ Demo.of_p3 ++ Demo.of_p4).
Proof.
  apply (num_patients_add_up (Demo.of_p1_p2 ++ Demo.of_p3 ++ Demo.of_p4));
    [reflexivity | ..];
    apply (bool_decide_unpack _); vm_compute; exact I.
Defined.

Lemma step6_never_raises_witness :
  outcome (Mortality.step6 (SampleDataset Demo.seven None)
             Demo.all_but_p4 [] Demo.of_p4) = inr tt
  ∧ outcome (Mortality.step6 (SampleDataset [] None) [] [] []) = inr tt.
Proof.
  split.
  - apply (step6_never_raises (SampleDataset Demo.seven None)).
    repeat (apply Forall_cons_2; [vm_compute; auto |]). apply Forall_nil_2.
  - apply (step6_never_raises (SampleDataset [] None)). apply Forall_nil_2.
Defined.
